(** * ClimaGrid backend: a shallow embedding of [climagrid-backend/main.py]

    The development follows the source file top-down: the metric catalog,
    the pydantic models, the haversine helper, the observation filter, the
    forecast fetcher and the HTTP handlers.

    Modelling conventions.
    - A Python call either returns, raises [HTTPException(status_code)], or
      raises another exception that FastAPI turns into a 500-class answer;
      this is the type [outcome].
    - A [datetime] is naive or timezone-aware, as in Python.  Ordering a
      naive against an aware value raises [TypeError]; this is the behaviour
      of [datetime.__lt__] and [datetime.__gt__].
    - A finite Python [float] is the real number it denotes.  The
      arithmetic of the platform is a parameter, [float_arith]: the rounding
      of every exact result and the functions of the C library.  The
      distance is computed through it, with the domain errors of
      [math.sqrt] and [math.asin]; comparisons of floats are exact.
    - The clock ([datetime.utcnow()]), [uuid4()] and the two upstream HTTP
      services are inputs of the functions that use them. *)

From Stdlib Require Import ZArith List String Ascii Bool Lia.
From Stdlib Require Import Reals Lra Permutation Sorted.
Import ListNotations.

Local Open Scope Z_scope.

(** ** Outcomes of a Python call *)

Inductive pyexc : Type :=
| TypeError
| ValueError
| ValidationError.

Inductive outcome (A : Type) : Type :=
| Ok (a : A)
| HTTPException (status_code : Z)
| Raise (e : pyexc).

Arguments Ok {A} a.
Arguments HTTPException {A} status_code.
Arguments Raise {A} e.

Definition bind {A B : Type} (c : outcome A) (k : A -> outcome B) : outcome B :=
  match c with
  | Ok a => k a
  | HTTPException s => HTTPException s
  | Raise e => Raise e
  end.

Declare Scope py_scope.
Delimit Scope py_scope with py.
Notation "x <- c ;; k" := (bind c (fun x => k))
  (at level 61, c at next level, right associativity) : py_scope.
Local Open Scope py_scope.

Definition returns {A : Type} (c : outcome A) : Prop := exists a, c = Ok a.

(** ** [datetime] and [timedelta] *)

(** A naive value is its count of microseconds on the proleptic calendar; an
    aware value is its UTC instant together with its offset. *)
Inductive datetime : Type :=
| Naive (us : Z)
| Aware (utc_us : Z) (utcoffset_us : Z).

Definition timedelta_hours (hours : Z) : Z := hours * 3600000000.

(** [now + timedelta(...)] and [now - timedelta(...)] keep the tzinfo. *)
Definition dt_add (d : datetime) (delta : Z) : datetime :=
  match d with
  | Naive t => Naive (t + delta)
  | Aware t off => Aware (t + delta) off
  end.

Definition dt_sub (d : datetime) (delta : Z) : datetime := dt_add d (- delta).

(** [a < b] on datetimes. *)
Definition dt_lt (a b : datetime) : outcome bool :=
  match a, b with
  | Naive x, Naive y => Ok (x <? y)
  | Aware x _, Aware y _ => Ok (x <? y)
  | _, _ => Raise TypeError
  end.

(** [a > b] on datetimes. *)
Definition dt_gt (a b : datetime) : outcome bool := dt_lt b a.

Definition is_naive (d : datetime) : bool :=
  match d with Naive _ => true | Aware _ _ => false end.

(** The integer that orders values of one kind among themselves. *)
Definition dt_key (d : datetime) : Z :=
  match d with Naive t => t | Aware t _ => t end.

(** ** The metric catalog *)

Inductive MetricKey : Type :=
| temperature
| humidity
| precipitation
| windspeed.

Definition MetricKey_eqb (a b : MetricKey) : bool :=
  match a, b with
  | temperature, temperature => true
  | humidity, humidity => true
  | precipitation, precipitation => true
  | windspeed, windspeed => true
  | _, _ => false
  end.

Record MetricConfig : Type := {
  label : string;
  api_field : string;
  unit : string
}.

(** The temperature unit is the five bytes the source file holds. *)
Definition degree_celsius : string :=
  String (ascii_of_nat 195) (String (ascii_of_nat 130)
    (String (ascii_of_nat 194) (String (ascii_of_nat 176) "C"))).

Definition METRIC_CATALOG (m : MetricKey) : MetricConfig :=
  match m with
  | temperature =>
      {| label := "Air Temperature"; api_field := "temperature_2m";
         unit := degree_celsius |}
  | humidity =>
      {| label := "Relative Humidity"; api_field := "relativehumidity_2m";
         unit := "%" |}
  | precipitation =>
      {| label := "Precipitation"; api_field := "precipitation";
         unit := "mm" |}
  | windspeed =>
      {| label := "Wind Speed"; api_field := "windspeed_10m";
         unit := "km/h" |}
  end.

(** ** Pydantic models *)

Record GeocodeResult : Type := {
  geo_id : option Z;
  geo_name : string;
  geo_country : option string;
  geo_admin1 : option string;
  geo_latitude : R;
  geo_longitude : R;
  geo_timezone : option string
}.

(** [", ".join(pieces)]. *)
Fixpoint join_comma (pieces : list string) : string :=
  match pieces with
  | [] => EmptyString
  | [piece] => piece
  | piece :: rest => (piece ++ ", " ++ join_comma rest)%string
  end.

(** The [display_name] property; [if self.admin1] holds of a string that
    is present and not empty. *)
Definition display_name (self : GeocodeResult) : string :=
  let pieces := [geo_name self] in
  let pieces :=
    match geo_admin1 self with
    | Some (String c rest) => pieces ++ [String c rest]
    | _ => pieces
    end in
  let pieces :=
    match geo_country self with
    | Some (String c rest) => pieces ++ [String c rest]
    | _ => pieces
    end in
  join_comma pieces.

Record TimeseriesPoint : Type := {
  pt_timestamp : datetime;
  pt_value : R
}.

Record BaseObservation : Type := {
  obs_timestamp : datetime;
  obs_metric : MetricKey;
  obs_value : R;
  obs_latitude : R;
  obs_longitude : R;
  obs_location_name : option string;
  obs_source : option string;
  obs_notes : option string
}.

Record ObservationRecord : Type := {
  timestamp : datetime;
  metric : MetricKey;
  value : R;
  latitude : R;
  longitude : R;
  location_name : option string;
  source : option string;
  notes : option string;
  id : string;
  submitted_at : datetime
}.

Record TimeseriesResponse : Type := {
  ts_metric : MetricKey;
  ts_metric_label : string;
  ts_unit : string;
  ts_latitude : R;
  ts_longitude : R;
  ts_hours_requested : Z;
  ts_source : string;
  points : list TimeseriesPoint;
  user_observations : list ObservationRecord
}.

Definition set_user_observations (series : TimeseriesResponse)
    (obs : list ObservationRecord) : TimeseriesResponse :=
  {| ts_metric := ts_metric series;
     ts_metric_label := ts_metric_label series;
     ts_unit := ts_unit series;
     ts_latitude := ts_latitude series;
     ts_longitude := ts_longitude series;
     ts_hours_requested := ts_hours_requested series;
     ts_source := ts_source series;
     points := points series;
     user_observations := obs |}.

(** ** Double-precision arithmetic

    [fl] rounds the exact result of an addition, subtraction, multiplication
    or division to a float; [fl_sqrt], [fl_sin], [fl_cos], [fl_asin] and
    [fl_pow2] are the C library's [sqrt], [sin], [cos], [asin] and
    [pow(x, 2.0)] on floats; [math_pi] is the constant [math.pi]. *)
Class float_arith : Type := {
  math_pi : R;
  fl : R -> R;
  fl_sqrt : R -> R;
  fl_sin : R -> R;
  fl_cos : R -> R;
  fl_asin : R -> R;
  fl_pow2 : R -> R
}.

(** The arithmetic that does not round: floats read as real numbers. *)
Definition exact_reals : float_arith :=
  {| math_pi := PI;
     fl := fun x => x;
     fl_sqrt := sqrt;
     fl_sin := sin;
     fl_cos := cos;
     fl_asin := asin;
     fl_pow2 := fun x => (x ^ 2)%R |}.

(** ** [_haversine_distance_km] *)

Local Open Scope R_scope.

(** [math.radians]: the product with the constant [pi / 180]. *)
Definition radians {fp : float_arith} (x : R) : R :=
  fl (x * fl (math_pi / 180)).

(** [math.sqrt]: a negative argument is a domain error. *)
Definition py_sqrt {fp : float_arith} (x : R) : outcome R :=
  if Rlt_dec x 0 then Raise ValueError else Ok (fl_sqrt x).

(** [math.asin]: an argument outside [-1, 1] is a domain error. *)
Definition py_asin {fp : float_arith} (x : R) : outcome R :=
  if Rlt_dec x (-1) then Raise ValueError
  else if Rlt_dec 1 x then Raise ValueError
  else Ok (fl_asin x).

(** The quantity named [a] in the source. *)
Definition haversine_a {fp : float_arith} (lat1 lon1 lat2 lon2 : R) : R :=
  let d_lat := radians (fl (lat2 - lat1)) in
  let d_lon := radians (fl (lon2 - lon1)) in
  fl (fl_pow2 (fl_sin (fl (d_lat / 2)))
      + fl (fl (fl_cos (radians lat1) * fl_cos (radians lat2))
            * fl_pow2 (fl_sin (fl (d_lon / 2))))).

Definition _haversine_distance_km {fp : float_arith}
    (lat1 lon1 lat2 lon2 : R) : outcome R :=
  let r := 6371 in
  let a := haversine_a lat1 lon1 lat2 lon2 in
  s <- py_sqrt a ;;
  t <- py_asin s ;;
  let c := fl (2 * t) in
  Ok (fl (r * c)).

Local Close Scope R_scope.

(** ** [sorted(..., key=...)]

    [sorted] is stable and orders keys with [<] only.  The insertion sort
    below places an element before the first one whose key is not smaller,
    so equal keys keep their input order; a comparison that raises makes the
    whole call raise, which for [sorted] happens exactly when the list
    mixes naive and aware keys. *)

Section Sorted.
Context {A : Type}.
Variable key : A -> datetime.

Fixpoint insert_sorted (x : A) (l : list A) : outcome (list A) :=
  match l with
  | [] => Ok [x]
  | y :: rest =>
      smaller <- dt_lt (key y) (key x) ;;
      if smaller : bool then
        placed <- insert_sorted x rest ;;
        Ok (y :: placed)
      else Ok (x :: y :: rest)
  end.

Fixpoint sorted (l : list A) : outcome (list A) :=
  match l with
  | [] => Ok []
  | x :: rest =>
      tail <- sorted rest ;;
      insert_sorted x tail
  end.
End Sorted.

(** ** [_filter_user_observations] *)

(** [metric and obs.metric != metric]: every metric key is a non-empty
    string, so the left operand is true exactly when a metric is given. *)
Definition metric_differs (wanted : option MetricKey)
    (obs : ObservationRecord) : bool :=
  match wanted with
  | Some m => negb (MetricKey_eqb (metric obs) m)
  | None => false
  end.

(** The body of the [for obs in USER_OBSERVATIONS] loop; [matches] is the
    list built so far. *)
Fixpoint filter_loop {fp : float_arith} (center_lat center_lon : R)
    (wanted : option MetricKey) (cutoff : datetime) (radius_km : R)
    (observations matches : list ObservationRecord)
    : outcome (list ObservationRecord) :=
  match observations with
  | [] => Ok matches
  | obs :: rest =>
      if metric_differs wanted obs then
        filter_loop center_lat center_lon wanted cutoff radius_km rest matches
      else
        too_old <- dt_lt (timestamp obs) cutoff ;;
        if too_old : bool then
          filter_loop center_lat center_lon wanted cutoff radius_km rest matches
        else
          d <- _haversine_distance_km center_lat center_lon
                 (latitude obs) (longitude obs) ;;
          if Rgt_dec d radius_km then
            filter_loop center_lat center_lon wanted cutoff radius_km
              rest matches
          else
            filter_loop center_lat center_lon wanted cutoff radius_km
              rest (matches ++ [obs])
  end.

(** [now] is the value [datetime.utcnow()] returns inside the call. *)
Definition _filter_user_observations {fp : float_arith}
    (USER_OBSERVATIONS : list ObservationRecord) (now : Z)
    (center_lat center_lon : R) (wanted : option MetricKey) (hours : Z)
    (radius_km : R) : outcome (list ObservationRecord) :=
  let cutoff := dt_sub (Naive now) (timedelta_hours hours) in
  matches <- filter_loop center_lat center_lon wanted cutoff radius_km
               USER_OBSERVATIONS [] ;;
  sorted timestamp matches.

(** The default of the [radius_km] parameter. *)
Definition default_radius_km : R := 75%R.

(** ** [_fetch_hourly_data] *)

(** [raw_time.replace("Z", "+00:00")]. *)
Fixpoint replace_Z (s : string) : string :=
  match s with
  | EmptyString => EmptyString
  | String c rest =>
      if Ascii.eqb c "Z"%char then ("+00:00" ++ replace_Z rest)%string
      else String c (replace_Z rest)
  end.

(** [points[:n]] for a Python integer [n]. *)
Definition slice_to {A : Type} (l : list A) (n : Z) : list A :=
  if 0 <=? n then firstn (Z.to_nat n) l
  else firstn (Z.to_nat (Z.of_nat (List.length l) + n)) l.

(** [not x] for an optional JSON array: absent, null and empty are falsy. *)
Definition falsy {A : Type} (x : option (list A)) : bool :=
  match x with
  | None => true
  | Some [] => true
  | Some (_ :: _) => false
  end.

Definition or_empty {A : Type} (x : option (list A)) : list A :=
  match x with
  | None => []
  | Some l => l
  end.

(** [ceil(hours / 24)] on integers. *)
Definition ceil_div24 (hours : Z) : Z := - ((- hours) / 24).

Definition forecast_days_of (hours : Z) : Z :=
  Z.max 1 (Z.min 7 (ceil_div24 hours)).

(** What an HTTP GET through [httpx] gives: [httpx.HTTPError] (transport
    failure, timeout or [raise_for_status]) or the decoded JSON body. *)
Inductive http_reply (J : Type) : Type :=
| HTTPError
| Reply (json : J).

Arguments HTTPError {J}.
Arguments Reply {J} json.

Record forecast_params : Type := {
  param_latitude : R;
  param_longitude : R;
  param_hourly : string;
  param_forecast_days : Z;
  param_timezone : string
}.

(** The ["hourly"] object of the forecast body: the ["time"] array and the
    arrays of the other fields by name; entries are numbers or null. *)
Record hourly_json : Type := {
  json_time : option (list string);
  json_field : string -> option (list (option R))
}.

Definition empty_hourly : hourly_json :=
  {| json_time := None; json_field := fun _ => None |}.

(** The forecast body, a JSON object: [None] when it has no ["hourly"]
    key, for which the source substitutes the empty object. *)
Definition forecast_json : Type := option hourly_json.

Section Fetcher.
(** [datetime.fromisoformat]: [None] stands for [ValueError]. *)
Variable fromisoformat : string -> option datetime.
(** The upstream forecast endpoint. *)
Variable open_meteo : forecast_params -> http_reply forecast_json.

(** The body of the [for raw_time, raw_value in zip(...)] loop. *)
Fixpoint hourly_loop (cutoff : datetime)
    (pairs : list (string * option R)) (acc : list TimeseriesPoint)
    : outcome (list TimeseriesPoint) :=
  match pairs with
  | [] => Ok acc
  | (raw_time, raw_value) :: rest =>
      match fromisoformat (replace_Z raw_time) with
      | None => hourly_loop cutoff rest acc
      | Some ts =>
          late <- dt_gt ts cutoff ;;
          if late : bool then Ok acc
          else
            match raw_value with
            | None => hourly_loop cutoff rest acc
            | Some v =>
                hourly_loop cutoff rest
                  (acc ++ [{| pt_timestamp := ts; pt_value := v |}])
            end
      end
  end.

(** [now] is the value of [datetime.utcnow()] at line 192. *)
Definition _fetch_hourly_data (now : Z) (m : MetricKey)
    (lat lon : R) (hours : Z) : outcome TimeseriesResponse :=
  let config := METRIC_CATALOG m in
  let forecast_days := forecast_days_of hours in
  let params :=
    {| param_latitude := lat; param_longitude := lon;
       param_hourly := api_field config;
       param_forecast_days := forecast_days;
       param_timezone := "UTC" |} in
  match open_meteo params with
  | HTTPError => HTTPException 502
  | Reply payload =>
      let hourly :=
        match payload with Some h => h | None => empty_hourly end in
      let timestamps := json_time hourly in
      let values := json_field hourly (api_field config) in
      if falsy timestamps || falsy values then HTTPException 502
      else
        let cutoff := dt_add (Naive now) (timedelta_hours hours) in
        pts <- hourly_loop cutoff
                 (combine (or_empty timestamps) (or_empty values)) [] ;;
        match pts with
        | [] => HTTPException 404
        | _ :: _ =>
            Ok {| ts_metric := m;
                  ts_metric_label := label config;
                  ts_unit := unit config;
                  ts_latitude := lat;
                  ts_longitude := lon;
                  ts_hours_requested := hours;
                  ts_source := "open-meteo";
                  points := slice_to pts hours;
                  user_observations := [] |}
        end
  end.
End Fetcher.

(** ** [geocode] *)

Record geocode_params : Type := {
  param_name : string;
  param_count : Z;
  param_language : string;
  param_format : string
}.

(** One entry of the provider's ["results"] array; a key that is missing
    from the JSON object is [None]. *)
Record geocode_item : Type := {
  item_id : option Z;
  item_name : option string;
  item_country : option string;
  item_admin1 : option string;
  item_latitude : option R;
  item_longitude : option R;
  item_timezone : option string
}.

(** The geocoding body: [None] for a null body, and inside it [None] for a
    missing or null ["results"] key. *)
Record geocode_body : Type := {
  json_results : option (list geocode_item)
}.

Definition geocode_json : Type := option geocode_body.

(** The model built from the keys of one item: [name], [latitude] and
    [longitude] have no default, so pydantic rejects an item without them. *)
Definition GeocodeResult_of (item : geocode_item) : outcome GeocodeResult :=
  match item_name item, item_latitude item, item_longitude item with
  | Some n, Some la, Some lo =>
      Ok {| geo_id := item_id item;
            geo_name := n;
            geo_country := item_country item;
            geo_admin1 := item_admin1 item;
            geo_latitude := la;
            geo_longitude := lo;
            geo_timezone := item_timezone item |}
  | _, _, _ => Raise ValidationError
  end.

(** A list comprehension whose element expression may raise. *)
Fixpoint comprehension {A B : Type} (f : A -> outcome B) (l : list A)
    : outcome (list B) :=
  match l with
  | [] => Ok []
  | x :: rest =>
      y <- f x ;;
      ys <- comprehension f rest ;;
      Ok (y :: ys)
  end.

Section Geocode.
(** The upstream geocoding endpoint. *)
Variable geocoding_api : geocode_params -> http_reply geocode_json.

Definition geocode (query : string) (count : Z)
    : outcome (list GeocodeResult) :=
  let params :=
    {| param_name := query; param_count := count;
       param_language := "en"; param_format := "json" |} in
  match geocoding_api params with
  | HTTPError => HTTPException 502
  | Reply json =>
      let payload :=
        match json with
        | Some body => body
        | None => {| json_results := None |}
        end in
      let results := or_empty (json_results payload) in
      comprehension GeocodeResult_of results
  end.
End Geocode.

(** ** [list_observations] *)

(** The body of the [for obs in data] loop of the handler. *)
Fixpoint list_loop {fp : float_arith} (center_lat center_lon : option R)
    (wanted : option MetricKey) (cutoff : datetime) (radius_km : R)
    (data filtered : list ObservationRecord)
    : outcome (list ObservationRecord) :=
  match data with
  | [] => Ok filtered
  | obs :: rest =>
      if metric_differs wanted obs then
        list_loop center_lat center_lon wanted cutoff radius_km rest filtered
      else
        too_old <- dt_lt (timestamp obs) cutoff ;;
        if too_old : bool then
          list_loop center_lat center_lon wanted cutoff radius_km
            rest filtered
        else
          match center_lat, center_lon with
          | Some lat, Some lon =>
              d <- _haversine_distance_km lat lon
                     (latitude obs) (longitude obs) ;;
              if Rgt_dec d radius_km then
                list_loop center_lat center_lon wanted cutoff radius_km
                  rest filtered
              else
                list_loop center_lat center_lon wanted cutoff radius_km
                  rest (filtered ++ [obs])
          | _, _ =>
              list_loop center_lat center_lon wanted cutoff radius_km
                rest (filtered ++ [obs])
          end
  end.

(** [now_inner] is the clock read inside [_filter_user_observations], made
    only when both coordinates are given; [now] is the read at line 288. *)
Definition list_observations_on {fp : float_arith}
    (USER_OBSERVATIONS : list ObservationRecord)
    (now_inner now : Z) (wanted : option MetricKey)
    (center_lat center_lon : option R) (radius_km : R) (hours : Z)
    : outcome (list ObservationRecord) :=
  data <- match center_lat, center_lon with
          | Some lat, Some lon =>
              _filter_user_observations USER_OBSERVATIONS now_inner
                lat lon wanted hours radius_km
          | _, _ => Ok USER_OBSERVATIONS
          end ;;
  let cutoff := dt_sub (Naive now) (timedelta_hours hours) in
  filtered <- list_loop center_lat center_lon wanted cutoff radius_km
                data [] ;;
  sorted timestamp filtered.

(** ** Handlers over the process-wide [USER_OBSERVATIONS] *)

(** A handler runs on the current store and leaves a store behind, also
    when it raises. *)
Definition handler (A : Type) : Type :=
  list ObservationRecord -> outcome A * list ObservationRecord.

Definition hret {A : Type} (a : A) : handler A := fun store => (Ok a, store).

Definition hbind {A B : Type} (c : handler A) (k : A -> handler B)
    : handler B :=
  fun store =>
    match c store with
    | (Ok a, store') => k a store'
    | (HTTPException s, store') => (HTTPException s, store')
    | (Raise e, store') => (Raise e, store')
    end.

Definition lift {A : Type} (c : outcome A) : handler A :=
  fun store => (c, store).

Definition read_store : handler (list ObservationRecord) :=
  fun store => (Ok store, store).

(** [USER_OBSERVATIONS.append(record)]. *)
Definition append_store (record : ObservationRecord)
    : handler Datatypes.unit :=
  fun store => (Ok tt, store ++ [record]).

Notation "x <~ c ;; k" := (hbind c (fun x => k))
  (at level 61, c at next level, right associativity) : py_scope.

(** [x or default] on an optional string: [None] and [""] are falsy. *)
Definition or_default (x : option string) (default : string) : string :=
  match x with
  | None => default
  | Some EmptyString => default
  | Some (String c rest) => String c rest
  end.

Definition healthz : handler (list (string * string)) :=
  hret [("status", "ok")]%string.

Definition root : handler (list (string * string)) :=
  hret [("app", "climagrid"); ("status", "ok")]%string.

Definition available_metrics : handler (MetricKey -> MetricConfig) :=
  hret METRIC_CATALOG.

(** [uuid] is [str(uuid4())], [now] the clock read for [submitted_at]. *)
Definition add_observation (uuid : string) (now : Z) (obs : BaseObservation)
    : handler ObservationRecord :=
  let record :=
    {| id := uuid;
       timestamp := obs_timestamp obs;
       metric := obs_metric obs;
       value := obs_value obs;
       latitude := obs_latitude obs;
       longitude := obs_longitude obs;
       location_name := obs_location_name obs;
       source := Some (or_default (obs_source obs) "user");
       notes := obs_notes obs;
       submitted_at := Naive now |} in
  _ <~ append_store record ;;
  hret record.

Definition list_observations {fp : float_arith} (now_inner now : Z)
    (wanted : option MetricKey) (center_lat center_lon : option R)
    (radius_km : R) (hours : Z) : handler (list ObservationRecord) :=
  USER_OBSERVATIONS <~ read_store ;;
  lift (list_observations_on USER_OBSERVATIONS now_inner now wanted
          center_lat center_lon radius_km hours).

Section Application.
Context {fp : float_arith}.
Variable fromisoformat : string -> option datetime.
Variable open_meteo : forecast_params -> http_reply forecast_json.
Variable geocoding_api : geocode_params -> http_reply geocode_json.

(** [now_fetch] is the clock read of the fetcher, [now_filter] the one of
    the observation filter.  The test [metric not in METRIC_CATALOG] is
    never true of a [MetricKey] and has no counterpart here. *)
Definition timeseries (now_fetch now_filter : Z) (m : MetricKey)
    (lat lon : R) (hours : Z) (include_user_observations : bool)
    : handler TimeseriesResponse :=
  series <~ lift (_fetch_hourly_data fromisoformat open_meteo
                    now_fetch m lat lon hours) ;;
  if include_user_observations then
    USER_OBSERVATIONS <~ read_store ;;
    obs <~ lift (_filter_user_observations USER_OBSERVATIONS now_filter
                   lat lon (Some m) hours default_radius_km) ;;
    hret (set_user_observations series obs)
  else hret series.

Inductive request : Type :=
| GET_healthz
| GET_root
| GET_metrics
| GET_geocode (query : string) (count : Z)
| GET_timeseries (m : MetricKey) (lat lon : R) (hours : Z)
    (include_user_observations : bool)
| GET_observations (wanted : option MetricKey)
    (center_lat center_lon : option R) (radius_km : R) (hours : Z)
| POST_observations (obs : BaseObservation).

Inductive response : Type :=
| Status (body : list (string * string))
| Catalog (catalog : MetricKey -> MetricConfig)
| Places (results : list GeocodeResult)
| Series (series : TimeseriesResponse)
| Observations (records : list ObservationRecord)
| Created (record : ObservationRecord).

(** What one request reads from outside the process: up to two clock
    values and a fresh identifier. *)
Record ambient : Type := {
  clock_first : Z;
  clock_second : Z;
  fresh_uuid : string
}.

Definition hmap {A B : Type} (f : A -> B) (c : handler A) : handler B :=
  a <~ c ;; hret (f a).

Definition handle (req : request) (env : ambient) : handler response :=
  match req with
  | GET_healthz => hmap Status healthz
  | GET_root => hmap Status root
  | GET_metrics => hmap Catalog available_metrics
  | GET_geocode query count =>
      hmap Places (lift (geocode geocoding_api query count))
  | GET_timeseries m lat lon hours include =>
      hmap Series
        (timeseries (clock_first env) (clock_second env)
           m lat lon hours include)
  | GET_observations wanted lat lon radius_km hours =>
      hmap Observations
        (list_observations (clock_first env) (clock_second env)
           wanted lat lon radius_km hours)
  | POST_observations obs =>
      hmap Created
        (add_observation (fresh_uuid env) (clock_first env) obs)
  end.

(** The store after a sequence of requests, each with its ambient
    inputs. *)
Fixpoint run (trace : list (request * ambient))
    (store : list ObservationRecord) : list ObservationRecord :=
  match trace with
  | [] => store
  | (req, env) :: rest => run rest (snd (handle req env store))
  end.
End Application.

(** ** Vocabulary of the statements

    The conditions below are written from the words of the specification;
    the theorems relate them to the functions above. *)

(** Every record of the store carries a naive timestamp. *)
Definition naive_timestamps (store : list ObservationRecord) : Prop :=
  Forall (fun obs => is_naive (timestamp obs) = true) store.

(** Order by a datetime key, and the elements of a list whose key is at
    the instant [k], in list order. *)
Definition key_le {A : Type} (key : A -> datetime) (a b : A) : Prop :=
  dt_key (key a) <= dt_key (key b).

Definition keyed {A : Type} (key : A -> datetime) (k : Z) (l : list A)
    : list A :=
  filter (fun a => dt_key (key a) =? k) l.

(** "ascending by timestamp". *)
Definition not_later : ObservationRecord -> ObservationRecord -> Prop :=
  key_le timestamp.

(** The records of a list that carry the instant [k], in list order. *)
Definition at_instant : Z -> list ObservationRecord -> list ObservationRecord :=
  keyed timestamp.

(** "if metric given, record.metric must equal it". *)
Definition metric_matches (wanted : option MetricKey)
    (obs : ObservationRecord) : bool :=
  match wanted with
  | None => true
  | Some m => MetricKey_eqb (metric obs) m
  end.

(** "record.timestamp must be >= (now - max_age_hours)". *)
Definition recent_enough (now max_age_hours : Z)
    (obs : ObservationRecord) : bool :=
  match timestamp obs with
  | Naive t => now - max_age_hours * 3600000000 <=? t
  | Aware _ _ => false
  end.

(** "haversine distance(center, record.coordinate) <= radius_km". *)
Definition within_radius {fp : float_arith}
    (center_lat center_lon radius_km : R) (obs : ObservationRecord) : bool :=
  match _haversine_distance_km center_lat center_lon
          (latitude obs) (longitude obs) with
  | Ok d => if Rle_dec d radius_km then true else false
  | _ => false
  end.

(** The conjunction of the three conditions. *)
Definition selected {fp : float_arith} (center_lat center_lon : R)
    (wanted : option MetricKey) (now max_age_hours : Z) (radius_km : R)
    (obs : ObservationRecord) : bool :=
  metric_matches wanted obs
  && recent_enough now max_age_hours obs
  && within_radius center_lat center_lon radius_km obs.

(** The metric and age conditions alone. *)
Definition selected_without_center (wanted : option MetricKey)
    (now max_age_hours : Z) (obs : ObservationRecord) : bool :=
  metric_matches wanted obs && recent_enough now max_age_hours obs.

(** The distance from the center to the record is computed without a
    domain error. *)
Definition distance_returns {fp : float_arith} (center_lat center_lon : R)
    (obs : ObservationRecord) : bool :=
  match _haversine_distance_km center_lat center_lon
          (latitude obs) (longitude obs) with
  | Ok _ => true
  | _ => false
  end.

(** The distance returns for every record of the store that the query
    measures: those that pass the metric and age conditions. *)
Definition distances_return {fp : float_arith} (center_lat center_lon : R)
    (wanted : option MetricKey) (now max_age_hours : Z)
    (store : list ObservationRecord) : Prop :=
  Forall (fun obs => selected_without_center wanted now max_age_hours obs
                     = true ->
                     distance_returns center_lat center_lon obs = true)
    store.

(** Every record of the store that passes the metric test carries a naive
    timestamp. *)
Definition compared_naive (wanted : option MetricKey)
    (store : list ObservationRecord) : Prop :=
  Forall (fun obs => metric_matches wanted obs = true ->
                     is_naive (timestamp obs) = true) store.

(** An arithmetic in which zero stays zero: rounding, [sin], [sqrt], [asin]
    and the square all map 0 to 0, as they do on IEEE 754 doubles. *)
Definition zero_preserving (fp : float_arith) : Prop :=
  (fl 0 = 0 /\ fl_sin 0 = 0 /\ fl_pow2 0 = 0
   /\ fl_sqrt 0 = 0 /\ fl_asin 0 = 0)%R.

(** The query the fetcher sends for a metric, a coordinate and a horizon. *)
Definition forecast_request (m : MetricKey) (lat lon : R) (hours : Z)
    : forecast_params :=
  {| param_latitude := lat; param_longitude := lon;
     param_hourly := api_field (METRIC_CATALOG m);
     param_forecast_days := forecast_days_of hours;
     param_timezone := "UTC" |}.

(** The upstream answers that query with a body whose ["time"] array is
    [timestamps] and whose array for the metric's field is [values]. *)
Definition serves (open_meteo : forecast_params -> http_reply forecast_json)
    (m : MetricKey) (lat lon : R) (hours : Z)
    (timestamps : list string) (values : list (option R)) : Prop :=
  exists hourly,
    open_meteo (forecast_request m lat lon hours) = Reply (Some hourly)
    /\ json_time hourly = Some timestamps
    /\ json_field hourly (api_field (METRIC_CATALOG m)) = Some values.

(** The fetcher's cutoff, [now + hours]. *)
Definition fetch_cutoff (now hours : Z) : datetime :=
  dt_add (Naive now) (timedelta_hours hours).

Section Survivors.
Variable fromisoformat : string -> option datetime.
Variable cutoff_us : Z.

(** "parse timestamp (treat Z suffix as UTC offset)". *)
Definition parsed (raw_time : string) : option datetime :=
  fromisoformat (replace_Z raw_time).

(** "a parsed timestamp exceeds now + hours". *)
Definition exceeds_cutoff (entry : string * option R) : bool :=
  match parsed (fst entry) with
  | Some ts => cutoff_us <? dt_key ts
  | None => false
  end.

(** The pairs before the first one that exceeds the cutoff. *)
Fixpoint before_stop (pairs : list (string * option R))
    : list (string * option R) :=
  match pairs with
  | [] => []
  | entry :: rest =>
      if exceeds_cutoff entry then [] else entry :: before_stop rest
  end.

(** The point of a pair that parses and has a value. *)
Definition point_of (entry : string * option R) : list TimeseriesPoint :=
  match parsed (fst entry), snd entry with
  | Some ts, Some v => [{| pt_timestamp := ts; pt_value := v |}]
  | _, _ => []
  end.

(** "the surviving prefix in original order". *)
Definition surviving_points (pairs : list (string * option R))
    : list TimeseriesPoint :=
  flat_map point_of (before_stop pairs).

(** A pair whose timestamp parses to an aware value. *)
Definition parses_aware (entry : string * option R) : bool :=
  match parsed (fst entry) with
  | Some ts => negb (is_naive ts)
  | None => false
  end.
End Survivors.

(** ** Sample inputs *)

(** 2024-01-01T00:00 as a count of microseconds. *)
Definition new_year_2024 : Z := 1704067200000000.

(** A finite part of the graph of [datetime.fromisoformat]: the four strings
    below parse as Python parses them, every other string is refused. *)
Definition fromisoformat_sample (s : string) : option datetime :=
  if String.eqb s "2024-01-01T00:00" then
    Some (Naive new_year_2024)
  else if String.eqb s "2024-01-01T01:00" then
    Some (Naive (new_year_2024 + 3600000000))
  else if String.eqb s "2024-01-01T00:00+00:00" then
    Some (Aware new_year_2024 0)
  else if String.eqb s "2024-01-01T01:00+00:00" then
    Some (Aware (new_year_2024 + 3600000000) 0)
  else None.

(** An upstream that answers every query with the given two arrays. *)
Definition upstream_serving (timestamps : list string)
    (values : list (option R)) : forecast_params -> http_reply forecast_json :=
  fun _ =>
    Reply (Some {| json_time := Some timestamps;
                   json_field := fun _ => Some values |}).

(** The response to a one-day temperature request at (40, -74) that keeps
    the given points. *)
Definition temperature_series (kept : list TimeseriesPoint)
    : TimeseriesResponse :=
  {| ts_metric := temperature;
     ts_metric_label := "Air Temperature";
     ts_unit := degree_celsius;
     ts_latitude := 40%R;
     ts_longitude := (-74)%R;
     ts_hours_requested := 24;
     ts_source := "open-meteo";
     points := kept;
     user_observations := [] |}.

Definition first_hour_point : TimeseriesPoint :=
  {| pt_timestamp := Naive new_year_2024; pt_value := 5%R |}.

(** A temperature reading of 21.5 at the given instant and place, as the
    body of a POST to [/observations] that leaves the optional fields out. *)
Definition reading (ts : datetime) (lat lon : R) : BaseObservation :=
  {| obs_timestamp := ts;
     obs_metric := temperature;
     obs_value := (43 / 2)%R;
     obs_latitude := lat;
     obs_longitude := lon;
     obs_location_name := None;
     obs_source := None;
     obs_notes := None |}.

(** The record [add_observation] stores for such a reading. *)
Definition stored_reading (uuid : string) (now : Z) (ts : datetime)
    (lat lon : R) : ObservationRecord :=
  {| id := uuid;
     timestamp := ts;
     metric := temperature;
     value := (43 / 2)%R;
     latitude := lat;
     longitude := lon;
     location_name := None;
     source := Some "user"%string;
     notes := None;
     submitted_at := Naive now |}.

Definition at_new_year (uuid : string) : ambient :=
  {| clock_first := new_year_2024;
     clock_second := new_year_2024;
     fresh_uuid := uuid |}.

(** A geocoding provider that finds nothing. *)
Definition geocoding_nothing : geocode_params -> http_reply geocode_json :=
  fun _ => Reply (Some {| json_results := Some [] |}).

(** The application on the sample parser and upstreams. *)
Definition sample_run : list (request * ambient) ->
    list ObservationRecord -> list ObservationRecord :=
  run (fp := exact_reals) fromisoformat_sample (upstream_serving [] [])
    geocoding_nothing.

(** The store after one reading with an aware timestamp was posted. *)
Definition store_with_aware_reading : list ObservationRecord :=
  sample_run
    [(POST_observations (reading (Aware new_year_2024 0) 40%R (-74)%R),
      at_new_year "b")]
    [].

(** The store after a naive and then an aware reading were posted. *)
Definition store_with_both_readings : list ObservationRecord :=
  sample_run
    [(POST_observations (reading (Naive new_year_2024) 40%R (-74)%R),
      at_new_year "a");
     (POST_observations (reading (Aware new_year_2024 0) 10%R 10%R),
      at_new_year "b")]
    [].

(** ** Vocabulary of the geocoding statements *)

Definition geocode_request (query : string) (count : Z) : geocode_params :=
  {| param_name := query; param_count := count;
     param_language := "en"; param_format := "json" |}.

(** "the provider's result list": empty when the body is null or has no
    results. *)
Definition provider_results (json : geocode_json) : list geocode_item :=
  match json with
  | Some {| json_results := Some items |} => items
  | _ => []
  end.

(** An item with the three keys the provider always sends. *)
Definition has_required_keys (item : geocode_item) : Prop :=
  item_name item <> None
  /\ item_latitude item <> None
  /\ item_longitude item <> None.

(** "mapped into the local result shape": every key of the item is the
    field of the result, an absent optional key an empty field. *)
Definition same_place (item : geocode_item) (result : GeocodeResult) : Prop :=
  item_id item = geo_id result
  /\ item_name item = Some (geo_name result)
  /\ item_country item = geo_country result
  /\ item_admin1 item = geo_admin1 result
  /\ item_latitude item = Some (geo_latitude result)
  /\ item_longitude item = Some (geo_longitude result)
  /\ item_timezone item = geo_timezone result.

Definition springfield_item : geocode_item :=
  {| item_id := Some 4409896;
     item_name := Some "Springfield"%string;
     item_country := Some "United States"%string;
     item_admin1 := None;
     item_latitude := Some (3721 / 100)%R;
     item_longitude := Some (- (9329 / 100))%R;
     item_timezone := None |}.

Definition geocoding_springfield
    : geocode_params -> http_reply geocode_json :=
  fun _ => Reply (Some {| json_results := Some [springfield_item] |}).

(** The requests that post an observation. *)
Definition is_post (req : request) : bool :=
  match req with
  | POST_observations _ => true
  | _ => false
  end.

(** ** A sample of double-precision arithmetic

    Two valid coordinates that are nearly antipodal, each the double
    nearest to the decimal: (-65.0860606, -176.504109) and
    (65.0860607, 3.4958911).  Every constant below is the exact value of
    the double that IEEE 754 binary64 arithmetic (round to nearest, ties to
    even) and the C library produce on the way from these two coordinates
    to the argument of [asin]. *)
Local Open Scope R_scope.

Definition south_lat : R := - (572503043486667 / 8796093022208).
Definition south_lon : R := - (6210186246263761 / 35184372088832).
Definition north_lat : R := 4580024354930211 / 70368744177664.
Definition north_lon : R := 7872046927643917 / 2251799813685248.

(** [math.pi] and the constant [pi / 180] of [math.radians]. *)
Definition dbl_pi : R := 884279719003555 / 281474976710656.
Definition dbl_deg : R := 5030569068109113 / 288230376151711744.

(** [lat2 - lat1 = 130.17212130000001] and [lon2 - lon1 = 180.0000001]. *)
Definition dbl_lat_diff : R := 2290012175705887 / 17592186044416.
Definition dbl_lon_diff : R := 6333186979508197 / 35184372088832.

(** [d_lat = 2.271932110990442] and [d_lon = 3.1415926553351223]. *)
Definition dbl_d_lat : R := 5115936304233809 / 2251799813685248.
Definition dbl_d_lon : R := 1768559438989643 / 562949953421312.

(** [sin(d_lat / 2) = 0.9069415546762406] and its square
    [0.8225429835985564]; [sin(d_lon / 2)] is [1.0]. *)
Definition dbl_sin_lat : R := 8169003295373471 / 9007199254740992.
Definition dbl_sin_lat_sq : R := 7408808548861349 / 9007199254740992.

(** [radians(lat1) = -1.135966054622556] and
    [radians(lat2) = 1.1359660563678853]. *)
Definition dbl_rad_south : R := - (1278984075075919 / 1125899906842624).
Definition dbl_rad_north : R := 1278984077040985 / 1125899906842624.

(** Their cosines, [0.42125647421524065] and [0.42125647263232907], and
    the product of the two, [0.17745701640144396]. *)
Definition dbl_cos_south : R := 7588682001212667 / 18014398509481984.
Definition dbl_cos_north : R := 7588681972697467 / 18014398509481984.
Definition dbl_cos_cos : R := 799195352939823 / 4503599627370496.

(** [a = 1.0000000000000004] and [sqrt(a) = 1.0000000000000002]. *)
Definition dbl_a : R := 2251799813685249 / 2251799813685248.
Definition dbl_sqrt_a : R := 4503599627370497 / 4503599627370496.

(** The value a finite table of a function's graph gives at [x]: that of
    the first entry whose key is [x], and [default] where there is none. *)
Fixpoint table_lookup (table : list (R * R)) (default x : R) : R :=
  match table with
  | [] => default
  | (key, v) :: rest =>
      if Req_dec_T x key then v else table_lookup rest default x
  end.

(** The roundings on that way that are not exact. *)
Definition rounding_table : list (R * R) :=
  [(dbl_pi / 180, dbl_deg);
   (north_lat - south_lat, dbl_lat_diff);
   (north_lon - south_lon, dbl_lon_diff);
   (dbl_lat_diff * dbl_deg, dbl_d_lat);
   (dbl_lon_diff * dbl_deg, dbl_d_lon);
   (south_lat * dbl_deg, dbl_rad_south);
   (north_lat * dbl_deg, dbl_rad_north);
   (dbl_cos_south * dbl_cos_north, dbl_cos_cos);
   (dbl_sin_lat_sq + dbl_cos_cos, dbl_a)].

(** A finite part of double-precision arithmetic: the operations agree
    with IEEE 754 doubles at the arguments listed, and are the exact ones
    elsewhere. *)
Definition double_sample : float_arith :=
  {| math_pi := dbl_pi;
     fl := fun x => table_lookup rounding_table x x;
     fl_sqrt := fun x => table_lookup [(dbl_a, dbl_sqrt_a)] (sqrt x) x;
     fl_sin := fun x =>
       table_lookup [(dbl_d_lat / 2, dbl_sin_lat); (dbl_d_lon / 2, 1)]
         (sin x) x;
     fl_cos := fun x =>
       table_lookup [(dbl_rad_south, dbl_cos_south);
                     (dbl_rad_north, dbl_cos_north)]
         (cos x) x;
     fl_asin := asin;
     fl_pow2 := fun x =>
       table_lookup [(dbl_sin_lat, dbl_sin_lat_sq)] (x ^ 2) x |}.

Ltac unfold_doubles :=
  unfold south_lat, south_lon, north_lat, north_lon, dbl_pi, dbl_deg,
    dbl_lat_diff, dbl_lon_diff, dbl_d_lat, dbl_d_lon, dbl_sin_lat,
    dbl_sin_lat_sq, dbl_rad_south, dbl_rad_north, dbl_cos_south,
    dbl_cos_north, dbl_cos_cos, dbl_a, dbl_sqrt_a in *.

(** Reads an entry of the tables of [double_sample]: every test on a key
    is settled by arithmetic on the rationals. *)
Ltac table_entry :=
  cbn [fl fl_sqrt fl_sin fl_cos fl_pow2 math_pi double_sample
       table_lookup rounding_table];
  repeat match goal with
  | |- context [Req_dec_T ?x ?y] =>
      let H := fresh "H" in
      destruct (Req_dec_T x y) as [H | H];
        [try (exfalso; unfold_doubles; lra)
        | try (exfalso; apply H; unfold_doubles; lra)]
  end;
  try reflexivity; try (unfold_doubles; lra).

Local Close Scope R_scope.

(** ** Vocabulary of the further statements *)

(** The identifiers drawn for the POSTs of a trace, in order. *)
Definition posted_uuids (trace : list (request * ambient)) : list string :=
  map (fun step => fresh_uuid (snd step))
    (filter (fun step => is_post (fst step)) trace).

Section Processed.
Variable fromisoformat : string -> option datetime.
Variable cutoff_us : Z.

(** The pair at which the loop breaks: its timestamp parses to a naive
    value greater than the cutoff. *)
Definition breaks_loop (entry : string * option R) : bool :=
  match parsed fromisoformat (fst entry) with
  | Some (Naive t) => cutoff_us <? t
  | _ => false
  end.

(** The pairs the loop reaches when no comparison raises: those before the
    first pair that breaks it. *)
Fixpoint before_break (pairs : list (string * option R))
    : list (string * option R) :=
  match pairs with
  | [] => []
  | entry :: rest =>
      if breaks_loop entry then [] else entry :: before_break rest
  end.

(** A pair the loop passes over without a trace: its timestamp does not
    parse, or parses to a naive value within the cutoff and its value is
    null. *)
Definition passed_over (entry : string * option R) : bool :=
  match parsed fromisoformat (fst entry), snd entry with
  | None, _ => true
  | Some (Naive t), None => negb (cutoff_us <? t)
  | _, _ => false
  end.
End Processed.

(** The string holds the character [Z]. *)
Fixpoint has_Z (s : string) : bool :=
  match s with
  | EmptyString => false
  | String c rest => Ascii.eqb c "Z"%char || has_Z rest
  end.

(** The response of a fetch that keeps the point list [pts]. *)
Definition series_of (m : MetricKey) (lat lon : R) (hours : Z)
    (pts : list TimeseriesPoint) : TimeseriesResponse :=
  {| ts_metric := m;
     ts_metric_label := label (METRIC_CATALOG m);
     ts_unit := unit (METRIC_CATALOG m);
     ts_latitude := lat;
     ts_longitude := lon;
     ts_hours_requested := hours;
     ts_source := "open-meteo";
     points := slice_to pts hours;
     user_observations := [] |}.

(** The guard of the fetcher on a body: the time array or the array of the
    field is absent or empty. *)
Definition lacks_arrays (payload : forecast_json) (field : string) : bool :=
  match payload with
  | None => true
  | Some hourly => falsy (json_time hourly) || falsy (json_field hourly field)
  end.

(** 2023-12-31T00:00, one day before [new_year_2024]. *)
Definition new_years_eve_2023 : Z := new_year_2024 - 86400000000.

(** An item carries the three keys that have no default. *)
Definition complete (item : geocode_item) : bool :=
  match item_name item, item_latitude item, item_longitude item with
  | Some _, Some _, Some _ => true
  | _, _, _ => false
  end.

(** The piece [display_name] appends for an optional field: nothing when
    the field is absent or empty. *)
Definition comma_piece (x : option string) : string :=
  match x with
  | Some (String c rest) => (", " ++ String c rest)%string
  | _ => EmptyString
  end.

(** An arithmetic that respects signs: rounding and [sin] are odd and the
    square is even, as they are on IEEE 754 doubles rounded to nearest. *)
Definition sign_symmetric (fp : float_arith) : Prop :=
  (forall x : R, fl (- x) = - fl x)%R
  /\ (forall x : R, fl_sin (- x) = - fl_sin x)%R
  /\ (forall x : R, fl_pow2 (- x) = fl_pow2 x)%R.

(** * Facts *)

(** ** The outcome monad *)

Lemma bind_Ok {A B : Type} (c : outcome A) (k : A -> outcome B) (b : B) :
  bind c k = Ok b -> exists a, c = Ok a /\ k a = Ok b.
Proof.
  destruct c as [a | s | e]; simpl; intros H; try discriminate.
  exists a; split; [reflexivity | exact H].
Qed.

(** ** The haversine distance *)

Section HaversineFacts.
Context {fp : float_arith}.
Local Open Scope R_scope.

(** The call returns or raises [ValueError]: its only failures are the
    domain errors of [math.sqrt] and [math.asin]. *)
Lemma haversine_outcome (lat1 lon1 lat2 lon2 : R) :
  (exists d, _haversine_distance_km lat1 lon1 lat2 lon2 = Ok d)
  \/ _haversine_distance_km lat1 lon1 lat2 lon2 = Raise ValueError.
Proof.
  unfold _haversine_distance_km, py_sqrt, py_asin; cbv zeta.
  destruct (Rlt_dec _ 0); [right; reflexivity |]; cbn [bind].
  destruct (Rlt_dec _ (-1)); [right; reflexivity |].
  destruct (Rlt_dec 1 _); [right; reflexivity |].
  left; eexists; reflexivity.
Qed.

Lemma radians_0 : zero_preserving fp -> radians 0 = 0.
Proof.
  intros (Hfl & _); unfold radians.
  rewrite Rmult_0_l; exact Hfl.
Qed.

(** Where zero stays zero, [a] is 0 for a coordinate and itself. *)
Lemma haversine_a_same (lat lon : R) :
  zero_preserving fp -> haversine_a lat lon lat lon = 0.
Proof.
  intros Hz; pose proof (radians_0 Hz) as Hr.
  destruct Hz as (Hfl & Hsin & Hpow & _).
  unfold haversine_a; cbv zeta.
  replace (lat - lat) with 0 by lra.
  replace (lon - lon) with 0 by lra.
  rewrite Hfl, Hr.
  replace (0 / 2) with 0 by lra.
  rewrite Hfl, Hsin, Hpow, Rmult_0_r, Hfl, Rplus_0_l; exact Hfl.
Qed.

(** Where zero stays zero, the distance of a coordinate to itself is 0. *)
Lemma haversine_same (lat lon : R) :
  zero_preserving fp -> _haversine_distance_km lat lon lat lon = Ok 0.
Proof.
  intros Hz; unfold _haversine_distance_km; cbv zeta.
  rewrite (haversine_a_same lat lon Hz).
  destruct Hz as (Hfl & _ & _ & Hsqrt & Hasin).
  unfold py_sqrt; destruct (Rlt_dec 0 0); [lra |]; cbn [bind].
  rewrite Hsqrt; unfold py_asin.
  destruct (Rlt_dec 0 (-1)); [lra |].
  destruct (Rlt_dec 1 0); [lra |].
  rewrite Hasin; cbn [bind]; replace (2 * 0) with 0 by lra.
  rewrite Hfl; replace (6371 * 0) with 0 by lra.
  rewrite Hfl; reflexivity.
Qed.
End HaversineFacts.

Lemma exact_reals_zero_preserving : zero_preserving exact_reals.
Proof.
  unfold zero_preserving; cbn [fl fl_sin fl_pow2 fl_sqrt fl_asin exact_reals].
  repeat split;
    [apply sin_0 | simpl; lra | apply sqrt_0 | apply asin_0].
Qed.

(** ** The distance over the real numbers *)

Section HaversineExact.
Local Open Scope R_scope.
Local Existing Instance exact_reals.

Lemma radians_exact (x : R) : radians x = x * (PI / 180).
Proof. reflexivity. Qed.

Lemma radians_minus (x y : R) : radians (x - y) = radians x - radians y.
Proof. rewrite !radians_exact; lra. Qed.

Lemma haversine_a_exact (lat1 lon1 lat2 lon2 : R) :
  haversine_a lat1 lon1 lat2 lon2
  = sin (radians (lat2 - lat1) / 2) ^ 2
    + cos (radians lat1) * cos (radians lat2)
      * sin (radians (lon2 - lon1) / 2) ^ 2.
Proof. reflexivity. Qed.

(** [sin(x/2)^2 = (1 - cos x) / 2]. *)
Lemma sin_half_sq (x : R) : sin (x / 2) ^ 2 = (1 - cos x) / 2.
Proof.
  pose proof (cos_2a_sin (x / 2)) as H.
  replace (2 * (x / 2)) with x in H by lra.
  simpl; lra.
Qed.

Lemma sin_sq_bounds (x : R) : 0 <= sin x ^ 2 <= 1.
Proof.
  pose proof (SIN_bound x); simpl; nra.
Qed.

(** Over the reals the square root's argument never leaves [0, 1],
    whatever the four inputs. *)
Lemma haversine_a_bounds (lat1 lon1 lat2 lon2 : R) :
  0 <= haversine_a lat1 lon1 lat2 lon2 <= 1.
Proof.
  rewrite haversine_a_exact.
  rewrite (sin_half_sq (radians (lat2 - lat1))).
  rewrite radians_minus, cos_minus.
  set (p1 := radians lat1); set (p2 := radians lat2).
  pose proof (sin_sq_bounds (radians (lon2 - lon1) / 2)) as Hh.
  set (h := sin (radians (lon2 - lon1) / 2) ^ 2) in *.
  pose proof (cos_plus p2 p1) as Hp.
  pose proof (COS_bound (p2 + p1)) as Hb.
  pose proof (cos_minus p2 p1) as Hm.
  pose proof (COS_bound (p2 - p1)) as Hbm.
  set (cc := cos p2 * cos p1) in *.
  set (ss := sin p2 * sin p1) in *.
  replace (cos p1 * cos p2) with cc by (unfold cc; lra).
  destruct (Rle_dec 0 cc); split; nra.
Qed.

Lemma sqrt_unit_interval (x : R) : 0 <= x <= 1 -> 0 <= sqrt x <= 1.
Proof.
  intros [H0 H1]; split; [apply sqrt_pos |].
  rewrite <- sqrt_1; apply sqrt_le_1_alt; exact H1.
Qed.

Lemma asin_nonneg (x : R) : 0 <= x <= 1 -> 0 <= asin x.
Proof.
  intros Hx.
  destruct (Rle_dec 0 (asin x)) as [H | H]; [exact H | exfalso].
  pose proof (asin_bound x) as Hb.
  pose proof PI_RGT_0 as Hpi.
  assert (Hs : sin (asin x) < 0) by (apply sin_lt_0_var; lra).
  rewrite sin_asin in Hs; lra.
Qed.

(** The closed form of the distance over the reals: no domain error
    occurs. *)
Lemma haversine_closed_form (lat1 lon1 lat2 lon2 : R) :
  _haversine_distance_km lat1 lon1 lat2 lon2
  = Ok (6371 * (2 * asin (sqrt (haversine_a lat1 lon1 lat2 lon2)))).
Proof.
  unfold _haversine_distance_km; cbv zeta.
  pose proof (haversine_a_bounds lat1 lon1 lat2 lon2) as Ha.
  unfold py_sqrt; destruct (Rlt_dec _ 0); [lra |]; cbn [bind].
  pose proof (sqrt_unit_interval _ Ha) as Hs.
  change (fl_sqrt (haversine_a lat1 lon1 lat2 lon2))
    with (sqrt (haversine_a lat1 lon1 lat2 lon2)).
  unfold py_asin.
  destruct (Rlt_dec _ (-1)); [lra |].
  destruct (Rlt_dec 1 _); [lra | reflexivity].
Qed.
End HaversineExact.

(** ** The distance in double precision *)

Section DoubleSample.
Local Open Scope R_scope.
Local Existing Instance double_sample.

Lemma double_deg : fl (math_pi / 180) = dbl_deg.
Proof. table_entry. Qed.

Lemma double_lat_diff : fl (north_lat - south_lat) = dbl_lat_diff.
Proof. table_entry. Qed.

Lemma double_lon_diff : fl (north_lon - south_lon) = dbl_lon_diff.
Proof. table_entry. Qed.

Lemma double_d_lat : fl (dbl_lat_diff * dbl_deg) = dbl_d_lat.
Proof. table_entry. Qed.

Lemma double_d_lon : fl (dbl_lon_diff * dbl_deg) = dbl_d_lon.
Proof. table_entry. Qed.

Lemma double_half_d_lat : fl (dbl_d_lat / 2) = dbl_d_lat / 2.
Proof. table_entry. Qed.

Lemma double_half_d_lon : fl (dbl_d_lon / 2) = dbl_d_lon / 2.
Proof. table_entry. Qed.

Lemma double_sin_lat : fl_sin (dbl_d_lat / 2) = dbl_sin_lat.
Proof. table_entry. Qed.

Lemma double_sin_lon : fl_sin (dbl_d_lon / 2) = 1.
Proof. table_entry. Qed.

Lemma double_sin_lat_sq : fl_pow2 dbl_sin_lat = dbl_sin_lat_sq.
Proof. table_entry. Qed.

Lemma double_sin_lon_sq : fl_pow2 1 = 1.
Proof. table_entry. Qed.

Lemma double_rad_south : fl (south_lat * dbl_deg) = dbl_rad_south.
Proof. table_entry. Qed.

Lemma double_rad_north : fl (north_lat * dbl_deg) = dbl_rad_north.
Proof. table_entry. Qed.

Lemma double_cos_south : fl_cos dbl_rad_south = dbl_cos_south.
Proof. table_entry. Qed.

Lemma double_cos_north : fl_cos dbl_rad_north = dbl_cos_north.
Proof. table_entry. Qed.

Lemma double_cos_cos : fl (dbl_cos_south * dbl_cos_north) = dbl_cos_cos.
Proof. table_entry. Qed.

Lemma double_cos_cos_sin : fl (dbl_cos_cos * 1) = dbl_cos_cos.
Proof. table_entry. Qed.

Lemma double_a : fl (dbl_sin_lat_sq + dbl_cos_cos) = dbl_a.
Proof. table_entry. Qed.

Lemma double_sqrt_a : fl_sqrt dbl_a = dbl_sqrt_a.
Proof. table_entry. Qed.

(** The argument of the square root for the two sample coordinates: one
    unit in the last place above 1. *)
Lemma double_haversine_a :
  haversine_a south_lat south_lon north_lat north_lon = dbl_a.
Proof.
  unfold haversine_a, radians; cbv zeta.
  rewrite double_deg, double_lat_diff, double_lon_diff.
  rewrite double_d_lat, double_d_lon.
  rewrite double_half_d_lat, double_half_d_lon.
  rewrite double_sin_lat, double_sin_lon.
  rewrite double_sin_lat_sq, double_sin_lon_sq.
  rewrite double_rad_south, double_rad_north.
  rewrite double_cos_south, double_cos_north.
  rewrite double_cos_cos, double_cos_cos_sin.
  apply double_a.
Qed.
End DoubleSample.

(** C6. The distance does not always return.  The two sample coordinates
    are valid, and in double precision the argument of the square root for
    them is [1.0000000000000004], its root [1.0000000000000002], and
    [asin] raises [ValueError]: no value, negative or not, comes back.
    Over the real numbers the same call returns a distance that is not
    negative. *)
Theorem haversine_raises_near_antipode :
  ((-90 <= south_lat <= 90 /\ -180 <= south_lon <= 180)
   /\ (-90 <= north_lat <= 90 /\ -180 <= north_lon <= 180))%R
  /\ haversine_a (fp := double_sample)
       south_lat south_lon north_lat north_lon
     = dbl_a
  /\ (1 < dbl_sqrt_a)%R
  /\ _haversine_distance_km (fp := double_sample)
       south_lat south_lon north_lat north_lon
     = Raise ValueError
  /\ exists d,
       _haversine_distance_km (fp := exact_reals)
         south_lat south_lon north_lat north_lon
       = Ok d
       /\ (0 <= d)%R.
Proof.
  split; [unfold_doubles; lra |].
  split; [exact double_haversine_a |].
  split; [unfold_doubles; lra |].
  split.
  - unfold _haversine_distance_km; cbv zeta.
    rewrite double_haversine_a.
    unfold py_sqrt; destruct (Rlt_dec dbl_a 0) as [H | _];
      [exfalso; unfold_doubles; lra |]; cbn [bind].
    rewrite double_sqrt_a; unfold py_asin.
    destruct (Rlt_dec dbl_sqrt_a (-1)) as [H | _];
      [exfalso; unfold_doubles; lra |].
    destruct (Rlt_dec 1 dbl_sqrt_a) as [_ | H];
      [reflexivity | exfalso; apply H; unfold_doubles; lra].
  - rewrite haversine_closed_form; eexists; split; [reflexivity |].
    pose proof (haversine_a_bounds south_lat south_lon north_lat north_lon)
      as Ha.
    pose proof (asin_nonneg _ (sqrt_unit_interval _ Ha)).
    cbn [fl fl_asin fl_sqrt exact_reals]; lra.
Qed.

(** ** [sorted]: permutation, order and stability *)

Lemma dt_lt_Ok (a b : datetime) (c : bool) :
  dt_lt a b = Ok c -> c = (dt_key a <? dt_key b).
Proof.
  destruct a, b; simpl; intros H; inversion H; reflexivity.
Qed.

Lemma dt_lt_naive (a b : datetime) :
  is_naive a = true -> is_naive b = true ->
  dt_lt a b = Ok (dt_key a <? dt_key b).
Proof.
  destruct a, b; simpl; intros Ha Hb; try discriminate; reflexivity.
Qed.

Section SortedFacts.
Context {A : Type}.
Variable key : A -> datetime.

Lemma insert_sorted_perm (x : A) (l placed : list A) :
  insert_sorted key x l = Ok placed -> Permutation (x :: l) placed.
Proof.
  revert placed; induction l as [| y rest IH]; simpl; intros placed H.
  - inversion H; apply Permutation_refl.
  - destruct (dt_lt (key y) (key x)) as [[|] | s | e]; simpl in H;
      try discriminate.
    + destruct (insert_sorted key x rest) as [r | s | e]; simpl in H;
        try discriminate.
      inversion H; subst placed.
      eapply perm_trans; [apply perm_swap |].
      apply perm_skip, IH; reflexivity.
    + inversion H; apply Permutation_refl.
Qed.

Lemma insert_sorted_order (x : A) (l placed : list A) :
  StronglySorted (key_le key) l ->
  insert_sorted key x l = Ok placed -> StronglySorted (key_le key) placed.
Proof.
  revert placed; induction l as [| y rest IH]; simpl; intros placed Hs H.
  - inversion H; repeat constructor.
  - destruct (dt_lt (key y) (key x)) as [[|] | s | e] eqn:Hc; simpl in H;
      try discriminate.
    + destruct (insert_sorted key x rest) as [r | s | e] eqn:Hr; simpl in H;
        try discriminate.
      inversion H; subst placed.
      apply dt_lt_Ok in Hc; symmetry in Hc; apply Z.ltb_lt in Hc.
      inversion Hs as [| ? ? Hrest Hall]; subst.
      constructor; [apply IH; [exact Hrest | reflexivity] |].
      eapply Permutation_Forall; [apply (insert_sorted_perm _ _ _ Hr) |].
      constructor; [unfold key_le; lia | exact Hall].
    + inversion H; subst placed.
      apply dt_lt_Ok in Hc; symmetry in Hc; apply Z.ltb_ge in Hc.
      constructor; [exact Hs |].
      inversion Hs as [| ? ? Hrest Hall]; subst.
      constructor; [exact Hc |].
      eapply Forall_impl; [| exact Hall].
      unfold key_le; intros z Hz; unfold key_le in Hc; lia.
Qed.

Lemma insert_sorted_stable (x : A) (l placed : list A) (k : Z) :
  insert_sorted key x l = Ok placed ->
  keyed key k placed = keyed key k (x :: l).
Proof.
  revert placed; induction l as [| y rest IH]; simpl; intros placed H.
  - inversion H; reflexivity.
  - destruct (dt_lt (key y) (key x)) as [[|] | s | e] eqn:Hc; simpl in H;
      try discriminate.
    + destruct (insert_sorted key x rest) as [r | s | e] eqn:Hr; simpl in H;
        try discriminate.
      inversion H; subst placed.
      apply dt_lt_Ok in Hc; symmetry in Hc; apply Z.ltb_lt in Hc.
      specialize (IH r eq_refl).
      unfold keyed in *; simpl in *; rewrite IH.
      destruct (dt_key (key y) =? k) eqn:Hy;
        destruct (dt_key (key x) =? k) eqn:Hx; try reflexivity.
      apply Z.eqb_eq in Hy, Hx; lia.
    + inversion H; reflexivity.
Qed.

Lemma sorted_perm (l out : list A) :
  sorted key l = Ok out -> Permutation l out.
Proof.
  revert out; induction l as [| x rest IH]; simpl; intros out H.
  - inversion H; constructor.
  - destruct (sorted key rest) as [t | s | e]; simpl in H; try discriminate.
    eapply perm_trans; [apply perm_skip, IH; reflexivity |].
    apply insert_sorted_perm; exact H.
Qed.

Lemma sorted_order (l out : list A) :
  sorted key l = Ok out -> StronglySorted (key_le key) out.
Proof.
  revert out; induction l as [| x rest IH]; simpl; intros out H.
  - inversion H; constructor.
  - destruct (sorted key rest) as [t | s | e]; simpl in H; try discriminate.
    eapply insert_sorted_order; [apply IH; reflexivity | exact H].
Qed.

Lemma sorted_stable (l out : list A) (k : Z) :
  sorted key l = Ok out -> keyed key k out = keyed key k l.
Proof.
  revert out; induction l as [| x rest IH]; simpl; intros out H.
  - inversion H; reflexivity.
  - destruct (sorted key rest) as [t | s | e]; simpl in H; try discriminate.
    rewrite (insert_sorted_stable _ _ _ k H).
    unfold keyed in *; simpl; rewrite (IH t eq_refl); reflexivity.
Qed.

Lemma insert_sorted_returns (x : A) (l : list A) :
  is_naive (key x) = true ->
  Forall (fun a => is_naive (key a) = true) l ->
  exists placed, insert_sorted key x l = Ok placed.
Proof.
  intros Hx Hl; induction Hl as [| y rest Hy Hrest IH]; simpl.
  - eexists; reflexivity.
  - rewrite (dt_lt_naive _ _ Hy Hx); simpl.
    destruct (dt_key (key y) <? dt_key (key x)); [| eexists; reflexivity].
    destruct IH as [r Hr]; rewrite Hr; simpl; eexists; reflexivity.
Qed.

Lemma sorted_returns (l : list A) :
  Forall (fun a => is_naive (key a) = true) l ->
  exists out, sorted key l = Ok out.
Proof.
  intros Hl; induction Hl as [| x rest Hx Hrest IH]; simpl.
  - eexists; reflexivity.
  - destruct IH as [t Ht]; rewrite Ht; simpl.
    apply insert_sorted_returns; [exact Hx |].
    eapply Permutation_Forall; [apply (sorted_perm _ _ Ht) | exact Hrest].
Qed.
End SortedFacts.

(** ** The loop of [_filter_user_observations] *)

Lemma metric_differs_matches (wanted : option MetricKey)
    (obs : ObservationRecord) :
  metric_differs wanted obs = negb (metric_matches wanted obs).
Proof. destruct wanted; reflexivity. Qed.

Lemma cutoff_is_naive (now hours : Z) :
  dt_sub (Naive now) (timedelta_hours hours)
  = Naive (now - hours * 3600000000).
Proof.
  unfold dt_sub, dt_add, timedelta_hours; f_equal; lia.
Qed.

(** The age test of the loops against a naive cutoff. *)
Lemma age_test_Ok (now hours : Z) (obs : ObservationRecord) (too_old : bool) :
  dt_lt (timestamp obs) (Naive (now - hours * 3600000000)) = Ok too_old ->
  is_naive (timestamp obs) = true
  /\ recent_enough now hours obs = negb too_old.
Proof.
  unfold recent_enough; destruct (timestamp obs) as [t | t off]; simpl;
    intros H; inversion H; split; [reflexivity |].
  destruct (Z.ltb_spec t (now - hours * 3600000000));
    destruct (Z.leb_spec (now - hours * 3600000000) t); simpl;
    try reflexivity; lia.
Qed.

Lemma age_test_naive (now hours : Z) (obs : ObservationRecord) :
  is_naive (timestamp obs) = true ->
  dt_lt (timestamp obs) (Naive (now - hours * 3600000000))
  = Ok (negb (recent_enough now hours obs)).
Proof.
  unfold recent_enough; destruct (timestamp obs) as [t | t off];
    [| discriminate].
  intros _; cbn [dt_lt dt_key]; f_equal.
  destruct (Z.ltb_spec t (now - hours * 3600000000));
    destruct (Z.leb_spec (now - hours * 3600000000) t); simpl;
    try reflexivity; lia.
Qed.

Lemma dt_lt_outcome (a b : datetime) :
  (exists c, dt_lt a b = Ok c) \/ dt_lt a b = Raise TypeError.
Proof.
  destruct a, b; cbn [dt_lt]; try (right; reflexivity);
    left; eexists; reflexivity.
Qed.

Lemma age_test_aware (c : Z) (obs : ObservationRecord) :
  is_naive (timestamp obs) = false ->
  dt_lt (timestamp obs) (Naive c) = Raise TypeError.
Proof.
  destruct (timestamp obs); simpl; intros H; [discriminate | reflexivity].
Qed.

Section FilterLoop.
Context {fp : float_arith}.

(** The distance test of the loops, when the distance returns. *)
Lemma distance_test (lat lon radius_km : R) (obs : ObservationRecord)
    (d : R) :
  _haversine_distance_km lat lon (latitude obs) (longitude obs) = Ok d ->
  within_radius lat lon radius_km obs
  = (if Rgt_dec d radius_km then false else true).
Proof.
  unfold within_radius; intros ->.
  destruct (Rle_dec d radius_km), (Rgt_dec d radius_km);
    try reflexivity; lra.
Qed.

Lemma distance_returns_Ok (lat lon : R) (obs : ObservationRecord) :
  distance_returns lat lon obs = true ->
  exists d,
    _haversine_distance_km lat lon (latitude obs) (longitude obs) = Ok d.
Proof.
  unfold distance_returns.
  destruct (_haversine_distance_km _ _ _ _) as [d | s | e];
    try discriminate.
  intros _; exists d; reflexivity.
Qed.

Lemma distance_fails (lat lon : R) (obs : ObservationRecord) :
  distance_returns lat lon obs = false ->
  _haversine_distance_km lat lon (latitude obs) (longitude obs)
  = Raise ValueError.
Proof.
  unfold distance_returns.
  destruct (haversine_outcome lat lon (latitude obs) (longitude obs))
    as [[d ->] | ->]; [discriminate | reflexivity].
Qed.

(** Whenever the loop runs to its end, it has appended exactly the selected
    records, in store order. *)
Lemma filter_loop_Ok (lat lon : R) (wanted : option MetricKey)
    (now hours : Z) (radius_km : R)
    (observations matches out : list ObservationRecord) :
  filter_loop lat lon wanted (Naive (now - hours * 3600000000)) radius_km
    observations matches = Ok out ->
  out = matches
        ++ filter (selected lat lon wanted now hours radius_km) observations.
Proof.
  revert matches; induction observations as [| obs rest IH];
    simpl; intros matches H.
  - inversion H; rewrite app_nil_r; reflexivity.
  - unfold selected at 1; rewrite metric_differs_matches in H.
    destruct (metric_matches wanted obs); simpl in *; [| apply IH, H].
    destruct (dt_lt (timestamp obs) _) as [too_old | s | e] eqn:Hage;
      simpl in H; try discriminate.
    apply age_test_Ok in Hage as [_ ->].
    destruct too_old; simpl in *; [apply IH, H |].
    destruct (_haversine_distance_km lat lon _ _) as [d | s | e] eqn:Hd;
      simpl in H; try discriminate.
    rewrite (distance_test _ _ radius_km _ _ Hd).
    destruct (Rgt_dec d radius_km); [apply IH, H |].
    rewrite (IH _ H), <- app_assoc; reflexivity.
Qed.

(** Whenever the loop runs to its end, every record it compared carries a
    naive timestamp and every distance it computed returned. *)
Lemma filter_loop_Ok_inv (lat lon : R) (wanted : option MetricKey)
    (now hours : Z) (radius_km : R)
    (observations matches out : list ObservationRecord) :
  filter_loop lat lon wanted (Naive (now - hours * 3600000000)) radius_km
    observations matches = Ok out ->
  compared_naive wanted observations
  /\ distances_return lat lon wanted now hours observations.
Proof.
  unfold compared_naive, distances_return, selected_without_center.
  revert matches; induction observations as [| obs rest IH];
    cbn [filter_loop]; intros matches H; [split; constructor |].
  rewrite metric_differs_matches in H.
  destruct (metric_matches wanted obs) eqn:Hm; cbn [negb] in H.
  - destruct (dt_lt (timestamp obs) _) as [too_old | s | e] eqn:Hage;
      cbn [bind] in H; try discriminate.
    apply age_test_Ok in Hage as [Hn Hrecent].
    destruct too_old; cbn [negb] in Hrecent.
    + destruct (IH _ H) as [IHn IHd].
      split; constructor; try assumption; [intros _; exact Hn |].
      rewrite Hrecent, andb_false_r; intros Hf; discriminate Hf.
    + destruct (_haversine_distance_km lat lon _ _) as [d | s | e] eqn:Hd;
        cbn [bind] in H; try discriminate.
      assert (Hret : distance_returns lat lon obs = true)
        by (unfold distance_returns; rewrite Hd; reflexivity).
      destruct (Rgt_dec d radius_km); destruct (IH _ H) as [IHn IHd];
        split; constructor; try assumption;
        solve [intros _; exact Hn | intros _; exact Hret].
  - destruct (IH _ H) as [IHn IHd].
    split; constructor; try assumption; intros Hf; rewrite Hm in Hf;
      discriminate Hf.
Qed.

(** The loop runs to its end when every record that passes the metric test
    carries a naive timestamp and the distance returns for every record
    that also passes the age test. *)
Lemma filter_loop_returns (lat lon : R) (wanted : option MetricKey)
    (now hours : Z) (radius_km : R)
    (observations matches : list ObservationRecord) :
  compared_naive wanted observations ->
  distances_return lat lon wanted now hours observations ->
  exists out,
    filter_loop lat lon wanted (Naive (now - hours * 3600000000)) radius_km
      observations matches
    = Ok out.
Proof.
  unfold compared_naive, distances_return, selected_without_center.
  intros Hall; revert matches.
  induction Hall as [| obs rest Hobs Hrest IH]; cbn [filter_loop];
    intros matches Hdist.
  - eexists; reflexivity.
  - inversion Hdist as [| ? ? Hd Hdrest]; subst.
    rewrite metric_differs_matches.
    destruct (metric_matches wanted obs); cbn [negb andb] in *;
      [| apply IH, Hdrest].
    rewrite (age_test_naive now hours obs (Hobs eq_refl)); cbn [bind].
    destruct (recent_enough now hours obs); cbn [negb];
      [| apply IH, Hdrest].
    destruct (distance_returns_Ok _ _ _ (Hd eq_refl)) as [d ->]; cbn [bind].
    destruct (Rgt_dec d radius_km); apply IH, Hdrest.
Qed.

(** The loop ends in one of three ways: it returns, or it raises the
    [TypeError] of an age test or the [ValueError] of a distance. *)
Lemma filter_loop_outcome (lat lon : R) (wanted : option MetricKey)
    (cutoff : datetime) (radius_km : R)
    (observations matches : list ObservationRecord) :
  (exists out,
     filter_loop lat lon wanted cutoff radius_km observations matches
     = Ok out)
  \/ filter_loop lat lon wanted cutoff radius_km observations matches
     = Raise TypeError
  \/ filter_loop lat lon wanted cutoff radius_km observations matches
     = Raise ValueError.
Proof.
  revert matches; induction observations as [| obs rest IH];
    cbn [filter_loop]; intros matches; [left; eexists; reflexivity |].
  destruct (metric_differs wanted obs); [apply IH |].
  destruct (dt_lt_outcome (timestamp obs) cutoff) as [[too_old ->] | ->];
    cbn [bind]; [| right; left; reflexivity].
  destruct too_old; [apply IH |].
  destruct (haversine_outcome lat lon (latitude obs) (longitude obs))
    as [[d ->] | ->]; cbn [bind]; [| right; right; reflexivity].
  destruct (Rgt_dec d radius_km); apply IH.
Qed.

(** The loop does not return when a record that passes the metric test
    carries an aware timestamp: it raises [TypeError] at that record, unless
    a distance raised [ValueError] before. *)
Lemma filter_loop_raises (lat lon : R) (wanted : option MetricKey)
    (now hours : Z) (radius_km : R)
    (observations matches : list ObservationRecord) :
  Exists (fun obs => metric_matches wanted obs = true
                     /\ is_naive (timestamp obs) = false) observations ->
  filter_loop lat lon wanted (Naive (now - hours * 3600000000)) radius_km
    observations matches = Raise TypeError
  \/ filter_loop lat lon wanted (Naive (now - hours * 3600000000)) radius_km
       observations matches = Raise ValueError.
Proof.
  intros Hex.
  destruct (filter_loop_outcome lat lon wanted
              (Naive (now - hours * 3600000000)) radius_km observations
              matches) as [[out Hout] | [H | H]];
    [exfalso | left; exact H | right; exact H].
  apply filter_loop_Ok_inv in Hout as [Hnaive _].
  apply Exists_exists in Hex as (obs & Hin & Hm & Hn).
  unfold compared_naive in Hnaive; rewrite Forall_forall in Hnaive.
  rewrite (Hnaive obs Hin Hm) in Hn; discriminate.
Qed.

(** When the loop raises [ValueError], a distance it computed failed. *)
Lemma filter_loop_ValueError_inv (lat lon : R) (wanted : option MetricKey)
    (now hours : Z) (radius_km : R)
    (observations matches : list ObservationRecord) :
  filter_loop lat lon wanted (Naive (now - hours * 3600000000)) radius_km
    observations matches = Raise ValueError ->
  ~ distances_return lat lon wanted now hours observations.
Proof.
  unfold distances_return, selected_without_center.
  revert matches; induction observations as [| obs rest IH];
    cbn [filter_loop]; intros matches H Hdist; [discriminate |].
  inversion Hdist as [| ? ? Hd Hdrest]; subst.
  rewrite metric_differs_matches in H.
  destruct (metric_matches wanted obs); cbn [negb andb] in *;
    [| exact (IH _ H Hdrest)].
  destruct (dt_lt_outcome (timestamp obs)
              (Naive (now - hours * 3600000000)))
    as [[too_old Hage] | Hage]; rewrite Hage in H; cbn [bind] in H;
    [| discriminate].
  apply age_test_Ok in Hage as [_ Hrecent].
  destruct too_old; cbn [negb] in Hrecent; [exact (IH _ H Hdrest) |].
  destruct (distance_returns_Ok _ _ _ (Hd Hrecent)) as [d Hok].
  rewrite Hok in H; cbn [bind] in H.
  destruct (Rgt_dec d radius_km); exact (IH _ H Hdrest).
Qed.

(** The loop raises [TypeError] at a record of the wanted metric with an
    aware timestamp, when it gets there: the compared timestamps before it
    are naive and the distances computed before it return. *)
Lemma filter_loop_raises_at (lat lon : R) (wanted : option MetricKey)
    (now hours : Z) (radius_km : R)
    (before : list ObservationRecord) (obs : ObservationRecord)
    (rest matches : list ObservationRecord) :
  compared_naive wanted before ->
  distances_return lat lon wanted now hours before ->
  metric_matches wanted obs = true ->
  is_naive (timestamp obs) = false ->
  filter_loop lat lon wanted (Naive (now - hours * 3600000000)) radius_km
    (before ++ obs :: rest) matches
  = Raise TypeError.
Proof.
  unfold compared_naive, distances_return, selected_without_center.
  intros Hnaive Hdist Hm Hn; revert matches Hdist.
  induction Hnaive as [| o os Ho Hos IH]; intros matches Hdist;
    cbn [app filter_loop]; rewrite metric_differs_matches.
  - rewrite Hm; cbn [negb]; rewrite (age_test_aware _ obs Hn); reflexivity.
  - inversion Hdist as [| ? ? Hd Hdrest]; subst.
    destruct (metric_matches wanted o); cbn [negb andb] in *;
      [| apply IH, Hdrest].
    rewrite (age_test_naive now hours o (Ho eq_refl)); cbn [bind].
    destruct (recent_enough now hours o); cbn [negb];
      [| apply IH, Hdrest].
    destruct (distance_returns_Ok _ _ _ (Hd eq_refl)) as [d ->]; cbn [bind].
    destruct (Rgt_dec d radius_km); apply IH, Hdrest.
Qed.

Lemma selected_naive (lat lon : R) (wanted : option MetricKey)
    (now hours : Z) (radius_km : R) (obs : ObservationRecord) :
  selected lat lon wanted now hours radius_km obs = true ->
  is_naive (timestamp obs) = true.
Proof.
  unfold selected, recent_enough; destruct (timestamp obs); simpl;
    [reflexivity |].
  rewrite andb_false_r; simpl; discriminate.
Qed.

(** Whenever [_filter_user_observations] returns, its result is the selected
    records of the store, ascending by timestamp, ties in store order. *)
Lemma filter_user_observations_Ok (store : list ObservationRecord)
    (now : Z) (lat lon : R) (wanted : option MetricKey) (hours : Z)
    (radius_km : R) (out : list ObservationRecord) :
  _filter_user_observations store now lat lon wanted hours radius_km = Ok out ->
  Permutation (filter (selected lat lon wanted now hours radius_km) store) out
  /\ StronglySorted not_later out
  /\ forall k,
       at_instant k out
       = at_instant k
           (filter (selected lat lon wanted now hours radius_km) store).
Proof.
  unfold _filter_user_observations; cbv zeta; rewrite cutoff_is_naive.
  intros H; apply bind_Ok in H as [matches [Hloop Hsort]].
  apply filter_loop_Ok in Hloop; simpl in Hloop; subst matches.
  split; [apply (sorted_perm _ _ _ Hsort) |].
  split; [apply (sorted_order _ _ _ Hsort) |].
  intros k; apply (sorted_stable _ _ _ k Hsort).
Qed.

(** [_filter_user_observations] returns on a store where every compared
    timestamp is naive and every computed distance returns. *)
Lemma filter_user_observations_returns (store : list ObservationRecord)
    (now : Z) (lat lon : R) (wanted : option MetricKey) (hours : Z)
    (radius_km : R) :
  compared_naive wanted store ->
  distances_return lat lon wanted now hours store ->
  exists out,
    _filter_user_observations store now lat lon wanted hours radius_km
    = Ok out.
Proof.
  intros Hnaive Hdist.
  unfold _filter_user_observations; cbv zeta; rewrite cutoff_is_naive.
  destruct (filter_loop_returns lat lon wanted now hours radius_km store []
              Hnaive Hdist)
    as [matches Hloop].
  rewrite Hloop; simpl.
  apply sorted_returns.
  rewrite (filter_loop_Ok _ _ _ _ _ _ _ _ _ Hloop); simpl.
  apply Forall_forall; intros obs Hin.
  apply filter_In in Hin as [_ Hsel].
  eapply selected_naive; exact Hsel.
Qed.

(** Whenever [_filter_user_observations] returns, every compared timestamp
    of the store is naive and every computed distance returned. *)
Lemma filter_user_observations_Ok_inv (store : list ObservationRecord)
    (now : Z) (lat lon : R) (wanted : option MetricKey) (hours : Z)
    (radius_km : R) (out : list ObservationRecord) :
  _filter_user_observations store now lat lon wanted hours radius_km = Ok out ->
  compared_naive wanted store
  /\ distances_return lat lon wanted now hours store.
Proof.
  unfold _filter_user_observations; cbv zeta; rewrite cutoff_is_naive.
  intros H; apply bind_Ok in H as [matches [Hloop _]].
  eapply filter_loop_Ok_inv; exact Hloop.
Qed.

(** The three ways [_filter_user_observations] ends. *)
Lemma filter_user_observations_outcome (store : list ObservationRecord)
    (now : Z) (lat lon : R) (wanted : option MetricKey) (hours : Z)
    (radius_km : R) :
  (exists out,
     _filter_user_observations store now lat lon wanted hours radius_km
     = Ok out)
  \/ _filter_user_observations store now lat lon wanted hours radius_km
     = Raise TypeError
  \/ _filter_user_observations store now lat lon wanted hours radius_km
     = Raise ValueError.
Proof.
  destruct (filter_loop_outcome lat lon wanted
              (Naive (now - hours * 3600000000)) radius_km store [])
    as [[matches Hloop] | [H | H]].
  - left.
    destruct (filter_loop_Ok_inv _ _ _ _ _ _ _ _ _ Hloop) as [Hn Hd].
    apply filter_user_observations_returns; assumption.
  - right; left.
    unfold _filter_user_observations; cbv zeta; rewrite cutoff_is_naive, H.
    reflexivity.
  - right; right.
    unfold _filter_user_observations; cbv zeta; rewrite cutoff_is_naive, H.
    reflexivity.
Qed.
End FilterLoop.

(** ** The loop of [_fetch_hourly_data] *)

Section FetcherFacts.
Variable fromisoformat : string -> option datetime.

(** Against the naive cutoff the comparison returns exactly on naive
    timestamps. *)
Lemma dt_gt_cutoff_Ok (ts : datetime) (c : Z) (late : bool) :
  dt_gt ts (Naive c) = Ok late ->
  is_naive ts = true /\ late = (c <? dt_key ts).
Proof.
  destruct ts; simpl; intros H; inversion H; split; reflexivity.
Qed.

Lemma dt_gt_cutoff_aware (ts : datetime) (c : Z) :
  is_naive ts = false -> dt_gt ts (Naive c) = Raise TypeError.
Proof.
  destruct ts; simpl; intros H; [discriminate | reflexivity].
Qed.

(** Every point the loop appends is at or before the cutoff. *)
Lemma hourly_loop_within_cutoff (c : Z) (pairs : list (string * option R))
    (acc out : list TimeseriesPoint) :
  Forall (fun p => dt_gt (pt_timestamp p) (Naive c) = Ok false) acc ->
  hourly_loop fromisoformat (Naive c) pairs acc = Ok out ->
  Forall (fun p => dt_gt (pt_timestamp p) (Naive c) = Ok false) out.
Proof.
  revert acc; induction pairs as [| [raw_time raw_value] rest IH];
    cbn [hourly_loop]; intros acc Hacc H.
  - inversion H; subst; exact Hacc.
  - destruct (fromisoformat (replace_Z raw_time)) as [ts |];
      [| apply (IH _ Hacc H)].
    destruct (dt_gt ts (Naive c)) as [[|] | s | e] eqn:Hlate;
      cbn [bind] in H; try discriminate.
    + inversion H; subst; exact Hacc.
    + destruct raw_value as [v |]; [| apply (IH _ Hacc H)].
      refine (IH _ _ H).
      apply Forall_app; split; [exact Hacc |].
      constructor; [exact Hlate | constructor].
Qed.

(** Whenever the loop runs to its end or to its [break], it has appended
    exactly the surviving prefix. *)
Lemma hourly_loop_Ok (c : Z) (pairs : list (string * option R))
    (acc out : list TimeseriesPoint) :
  hourly_loop fromisoformat (Naive c) pairs acc = Ok out ->
  out = acc ++ surviving_points fromisoformat c pairs.
Proof.
  unfold surviving_points.
  revert acc; induction pairs as [| [raw_time raw_value] rest IH];
    cbn [hourly_loop before_stop]; intros acc H.
  - inversion H; rewrite app_nil_r; reflexivity.
  - unfold exceeds_cutoff, parsed; cbn [fst].
    destruct (fromisoformat (replace_Z raw_time)) as [[t | t off] |] eqn:Hp;
      cbn [dt_gt dt_lt bind dt_key] in *; try discriminate.
    + destruct (c <? t).
      * inversion H; rewrite app_nil_r; reflexivity.
      * cbn [flat_map]; unfold point_of at 1, parsed; cbn [fst snd].
        rewrite Hp.
        destruct raw_value as [v |]; cbn [app]; [| apply IH, H].
        rewrite (IH _ H), <- app_assoc; reflexivity.
    + cbn [flat_map]; unfold point_of at 1, parsed; cbn [fst snd].
      rewrite Hp; apply IH, H.
Qed.

(** The loop returns when no timestamp parses to an aware value. *)
Lemma hourly_loop_returns (c : Z) (pairs : list (string * option R))
    (acc : list TimeseriesPoint) :
  Forall (fun entry => parses_aware fromisoformat entry = false) pairs ->
  exists out, hourly_loop fromisoformat (Naive c) pairs acc = Ok out.
Proof.
  intros Hall; revert acc.
  induction Hall as [| [raw_time raw_value] rest Hpair Hrest IH];
    simpl; intros acc.
  - eexists; reflexivity.
  - unfold parses_aware, parsed in Hpair; simpl in Hpair.
    destruct (fromisoformat (replace_Z raw_time)) as [ts |]; [| apply IH].
    destruct ts as [t | t off]; simpl in *; [| discriminate].
    destruct (c <? t); [eexists; reflexivity |].
    destruct raw_value; apply IH.
Qed.

(** The loop raises [TypeError] when an aware timestamp is met before any
    pair stops it. *)
Lemma hourly_loop_raises (c : Z) (pairs : list (string * option R))
    (acc : list TimeseriesPoint) :
  Exists (fun entry => parses_aware fromisoformat entry = true)
    (before_stop fromisoformat c pairs) ->
  hourly_loop fromisoformat (Naive c) pairs acc = Raise TypeError.
Proof.
  revert acc; induction pairs as [| [raw_time raw_value] rest IH];
    simpl; intros acc Hex.
  - inversion Hex.
  - unfold exceeds_cutoff, parsed in Hex; simpl in Hex.
    destruct (fromisoformat (replace_Z raw_time)) as [ts |] eqn:Hp.
    + destruct ts as [t | t off]; simpl in *; [| reflexivity].
      destruct (c <? t); [inversion Hex |].
      inversion Hex as [? ? Hbad | ? ? Hlater]; subst.
      * unfold parses_aware, parsed in Hbad; simpl in Hbad.
        rewrite Hp in Hbad; discriminate.
      * destruct raw_value; apply IH, Hlater.
    + inversion Hex as [? ? Hbad | ? ? Hlater]; subst.
      * unfold parses_aware, parsed in Hbad; simpl in Hbad.
        rewrite Hp in Hbad; discriminate.
      * apply IH, Hlater.
Qed.
End FetcherFacts.

(** ** [_fetch_hourly_data] *)

Lemma firstn_length_le {A : Type} (n : nat) (l : list A) :
  (List.length (firstn n l) <= n)%nat.
Proof.
  rewrite length_firstn; apply Nat.le_min_l.
Qed.

Lemma Forall_firstn {A : Type} (P : A -> Prop) (n : nat) (l : list A) :
  Forall P l -> Forall P (firstn n l).
Proof.
  intros H; revert n; induction H as [| x l Hx Hl IH]; intros [| n]; simpl;
    constructor; [exact Hx | apply IH].
Qed.

(** What a successful fetch looks like: the loop returned a non-empty list
    and the response holds its slice. *)
Lemma fetch_Ok (fromisoformat : string -> option datetime)
    (open_meteo : forecast_params -> http_reply forecast_json)
    (now : Z) (m : MetricKey) (lat lon : R) (hours : Z)
    (series : TimeseriesResponse) :
  _fetch_hourly_data fromisoformat open_meteo now m lat lon hours = Ok series ->
  exists timestamps values pts,
    serves open_meteo m lat lon hours timestamps values
    /\ hourly_loop fromisoformat (fetch_cutoff now hours)
         (combine timestamps values) [] = Ok pts
    /\ pts <> []
    /\ points series = slice_to pts hours.
Proof.
  unfold _fetch_hourly_data, serves, forecast_request, fetch_cutoff;
    cbv zeta.
  destruct (open_meteo _) as [| payload] eqn:Hreply; [discriminate |].
  destruct payload as [hourly |]; [| discriminate].
  destruct (json_time hourly) as [[| t ts] |] eqn:Ht; try discriminate.
  destruct (json_field hourly _) as [[| v vs] |] eqn:Hv; try discriminate.
  cbn [falsy orb or_empty].
  destruct (hourly_loop _ _ _ _) as [pts | s | e] eqn:Hloop;
    cbn [bind]; try discriminate.
  destruct pts as [| p pts]; [discriminate |].
  intros H; inversion H; subst series; cbn [points].
  exists (t :: ts), (v :: vs), (p :: pts).
  split; [exists hourly; auto |].
  split; [exact Hloop |]; split; [discriminate | reflexivity].
Qed.

(** C1. For every upstream and every horizon between 1 and 168 hours, the
    points of a response the fetcher returns are at most [hours] many, and
    none of them has a timestamp greater than [now + hours], [now] being the
    clock value the fetcher read. *)
Theorem fetch_points_bounded (fromisoformat : string -> option datetime)
    (open_meteo : forecast_params -> http_reply forecast_json)
    (now : Z) (m : MetricKey) (lat lon : R) (hours : Z)
    (series : TimeseriesResponse) :
  1 <= hours <= 168 ->
  _fetch_hourly_data fromisoformat open_meteo now m lat lon hours = Ok series ->
  Z.of_nat (List.length (points series)) <= hours
  /\ Forall (fun p => dt_gt (pt_timestamp p) (fetch_cutoff now hours)
                      = Ok false)
       (points series).
Proof.
  intros Hhours H.
  apply fetch_Ok in H as (timestamps & values & pts & _ & Hloop & _ & ->).
  unfold slice_to; destruct (Z.leb_spec 0 hours) as [_ | Hneg]; [| lia].
  split.
  - pose proof (firstn_length_le (Z.to_nat hours) pts); lia.
  - apply Forall_firstn.
    eapply hourly_loop_within_cutoff; [constructor | exact Hloop].
Qed.

Lemma fetch_points_bounded_witness :
  Z.of_nat (List.length (points (temperature_series [first_hour_point])))
  <= 24
  /\ Forall (fun p => dt_gt (pt_timestamp p) (fetch_cutoff new_year_2024 24)
                      = Ok false)
       (points (temperature_series [first_hour_point])).
Proof.
  apply (fetch_points_bounded fromisoformat_sample
           (upstream_serving ["2024-01-01T00:00"; "2024-01-01T01:00"]%string
              [Some 5%R; None])
           new_year_2024 temperature 40%R (-74)%R 24).
  - lia.
  - reflexivity.
Defined.

(** C2. The scenario of the specification: the upstream sends
    ["2024-01-01T00:00Z"] with 5.0 and ["2024-01-01T01:00Z"] with null.  The
    first timestamp parses, to an aware value, and its comparison with the
    naive cutoff raises [TypeError]: no pair is appended or skipped.  The
    same arrays without the suffix give the one point the specification
    expects. *)
Theorem fetch_Z_suffix_raises :
  _fetch_hourly_data fromisoformat_sample
    (upstream_serving ["2024-01-01T00:00Z"; "2024-01-01T01:00Z"]%string
       [Some 5%R; None])
    new_year_2024 temperature 40%R (-74)%R 24
  = Raise TypeError
  /\ _fetch_hourly_data fromisoformat_sample
       (upstream_serving ["2024-01-01T00:00"; "2024-01-01T01:00"]%string
          [Some 5%R; None])
       new_year_2024 temperature 40%R (-74)%R 24
     = Ok (temperature_series [first_hour_point]).
Proof.
  split; reflexivity.
Qed.

Lemma slice_to_nonempty {A : Type} (l : list A) (n : Z) :
  1 <= n -> l <> [] -> slice_to l n <> [].
Proof.
  intros Hn Hl; unfold slice_to.
  destruct (Z.leb_spec 0 n); [| lia].
  destruct l as [| x l]; [congruence |].
  destruct (Z.to_nat n) as [| k] eqn:Hk; [lia | simpl; discriminate].
Qed.

Lemma surviving_points_all_null (fromisoformat : string -> option datetime)
    (c : Z) (timestamps : list string) (values : list (option R)) :
  Forall (fun v => v = None) values ->
  surviving_points fromisoformat c (combine timestamps values) = [].
Proof.
  unfold surviving_points; intros Hnull; revert timestamps.
  induction Hnull as [| v vs Hv Hvs IH]; intros [| t ts]; cbn [combine];
    try reflexivity.
  cbn [before_stop]; destruct (exceeds_cutoff _ _ _); [reflexivity |].
  cbn [flat_map]; rewrite IH, app_nil_r.
  unfold point_of; cbn [snd]; subst v.
  destruct (parsed _ _); reflexivity.
Qed.

(** Where the upstream sends two non-empty arrays and the loop ends with
    no point, the fetcher fails with 404; when every value is null the loop
    can only end with no point; and with a horizon of at least one hour no
    response the fetcher returns has an empty point sequence. *)
Lemma loop_without_point_is_404
    (fromisoformat : string -> option datetime)
    (open_meteo : forecast_params -> http_reply forecast_json)
    (now : Z) (m : MetricKey) (lat lon : R) (hours : Z)
    (timestamps : list string) (values : list (option R)) :
  serves open_meteo m lat lon hours timestamps values ->
  (timestamps <> [] -> values <> [] ->
   hourly_loop fromisoformat (fetch_cutoff now hours)
     (combine timestamps values) [] = Ok [] ->
   _fetch_hourly_data fromisoformat open_meteo now m lat lon hours
   = HTTPException 404)
  /\ (Forall (fun v => v = None) values ->
      forall pts,
        hourly_loop fromisoformat (fetch_cutoff now hours)
          (combine timestamps values) [] = Ok pts ->
        pts = [])
  /\ (1 <= hours ->
      forall series,
        _fetch_hourly_data fromisoformat open_meteo now m lat lon hours
        = Ok series ->
        points series <> []).
Proof.
  intros (hourly & Hreply & Ht & Hv).
  unfold forecast_request in Hreply.
  split; [| split].
  - intros Hts Hvs Hloop.
    unfold _fetch_hourly_data; cbv zeta; rewrite Hreply, Ht, Hv.
    destruct timestamps as [| t ts]; [congruence |].
    destruct values as [| v vs]; [congruence |].
    cbn [falsy orb or_empty].
    unfold fetch_cutoff in Hloop; rewrite Hloop; reflexivity.
  - intros Hnull pts Hloop.
    apply hourly_loop_Ok in Hloop; cbn [app] in Hloop.
    rewrite Hloop; apply surviving_points_all_null, Hnull.
  - intros Hhours series Hfetch.
    apply fetch_Ok in Hfetch as (ts' & vs' & pts & _ & _ & Hne & ->).
    apply slice_to_nonempty; assumption.
Qed.

(** C4. An upstream that sends two non-empty arrays, the timestamps with
    the [Z] suffix and every value null, leaves no pair to survive.  The
    fetcher does not fail with 404: the first timestamp parses to an aware
    value and its comparison with the naive cutoff raises [TypeError].  The
    same arrays without the suffix give the 404. *)
Theorem fetch_all_null_Z_suffix_raises :
  Forall (fun v : option R => v = None) [None; None]
  /\ surviving_points fromisoformat_sample
       (dt_key (fetch_cutoff new_year_2024 24))
       (combine ["2024-01-01T00:00Z"; "2024-01-01T01:00Z"]%string
          [None; None])
     = []
  /\ _fetch_hourly_data fromisoformat_sample
       (upstream_serving ["2024-01-01T00:00Z"; "2024-01-01T01:00Z"]%string
          [None; None])
       new_year_2024 temperature 40%R (-74)%R 24
     = Raise TypeError
  /\ _fetch_hourly_data fromisoformat_sample
       (upstream_serving ["2024-01-01T00:00"; "2024-01-01T01:00"]%string
          [None; None])
       new_year_2024 temperature 40%R (-74)%R 24
     = HTTPException 404.
Proof.
  split; [repeat constructor |].
  repeat split; reflexivity.
Qed.

(** ** [_filter_user_observations] on stores *)

(** The filter does not return on a store that holds a record with an
    aware timestamp and a metric that passes the metric test: it raises
    [TypeError], unless a distance raised [ValueError] before. *)
Lemma filter_user_observations_raises {fp : float_arith}
    (store : list ObservationRecord)
    (now : Z) (lat lon : R) (wanted : option MetricKey) (hours : Z)
    (radius_km : R) :
  Exists (fun obs => metric_matches wanted obs = true
                     /\ is_naive (timestamp obs) = false) store ->
  _filter_user_observations store now lat lon wanted hours radius_km
  = Raise TypeError
  \/ _filter_user_observations store now lat lon wanted hours radius_km
     = Raise ValueError.
Proof.
  intros Hex.
  unfold _filter_user_observations; cbv zeta; rewrite cutoff_is_naive.
  destruct (filter_loop_raises lat lon wanted now hours radius_km store []
              Hex) as [-> | ->]; [left | right]; reflexivity.
Qed.

(** The filter raises [TypeError] on such a store when every distance it
    computes returns. *)
Lemma filter_user_observations_TypeError {fp : float_arith}
    (store : list ObservationRecord)
    (now : Z) (lat lon : R) (wanted : option MetricKey) (hours : Z)
    (radius_km : R) :
  Exists (fun obs => metric_matches wanted obs = true
                     /\ is_naive (timestamp obs) = false) store ->
  distances_return lat lon wanted now hours store ->
  _filter_user_observations store now lat lon wanted hours radius_km
  = Raise TypeError.
Proof.
  intros Hex Hdist.
  unfold _filter_user_observations; cbv zeta; rewrite cutoff_is_naive.
  destruct (filter_loop_raises lat lon wanted now hours radius_km store []
              Hex) as [-> | Hv]; [reflexivity |].
  destruct (filter_loop_ValueError_inv _ _ _ _ _ _ _ _ Hv Hdist).
Qed.

(** The filter raises [TypeError] at a record of the wanted metric with an
    aware timestamp, when the loop gets there. *)
Lemma filter_user_observations_raises_at {fp : float_arith}
    (before : list ObservationRecord) (obs : ObservationRecord)
    (rest : list ObservationRecord)
    (now : Z) (lat lon : R) (wanted : option MetricKey) (hours : Z)
    (radius_km : R) :
  compared_naive wanted before ->
  distances_return lat lon wanted now hours before ->
  metric_matches wanted obs = true ->
  is_naive (timestamp obs) = false ->
  _filter_user_observations (before ++ obs :: rest) now lat lon wanted
    hours radius_km
  = Raise TypeError.
Proof.
  intros Hnaive Hdist Hm Hn.
  unfold _filter_user_observations; cbv zeta; rewrite cutoff_is_naive.
  rewrite (filter_loop_raises_at lat lon wanted now hours radius_km before
             obs rest [] Hnaive Hdist Hm Hn).
  reflexivity.
Qed.

(** Where zero stays zero, a record at the center of the query, inside the
    age window and of a matching metric is in every result the query
    returns, for every radius that is not negative. *)
Lemma matching_record_included {fp : float_arith}
    (store : list ObservationRecord)
    (now : Z) (wanted : option MetricKey) (hours : Z) (radius_km : R)
    (record : ObservationRecord) (out : list ObservationRecord) :
  zero_preserving fp ->
  In record store ->
  metric_matches wanted record = true ->
  recent_enough now hours record = true ->
  (0 <= radius_km)%R ->
  _filter_user_observations store now (latitude record) (longitude record)
    wanted hours radius_km = Ok out ->
  In record out.
Proof.
  intros Hz Hin Hmetric Hage Hradius Hout.
  apply filter_user_observations_Ok in Hout as (Hperm & _ & _).
  eapply Permutation_in; [exact Hperm |].
  apply filter_In; split; [exact Hin |].
  unfold selected, within_radius.
  rewrite Hmetric, Hage, (haversine_same _ _ Hz); simpl.
  destruct (Rle_dec 0 radius_km); [reflexivity | contradiction].
Qed.

(** With a radius of 0, a record at a positive distance from the center is
    in no result. *)
Lemma zero_radius_excludes {fp : float_arith}
    (store : list ObservationRecord)
    (now : Z) (lat lon : R) (wanted : option MetricKey) (hours : Z)
    (record : ObservationRecord) (d : R) (out : list ObservationRecord) :
  _haversine_distance_km lat lon (latitude record) (longitude record) = Ok d ->
  (0 < d)%R ->
  _filter_user_observations store now lat lon wanted hours 0%R = Ok out ->
  ~ In record out.
Proof.
  intros Hd Hpos Hout Hin.
  apply filter_user_observations_Ok in Hout as (Hperm & _ & _).
  apply Permutation_sym in Hperm.
  apply (Permutation_in _ Hperm), filter_In in Hin as [_ Hsel].
  unfold selected, within_radius in Hsel; rewrite Hd in Hsel.
  destruct (Rle_dec d 0); [lra |].
  rewrite andb_false_r in Hsel; discriminate.
Qed.

(** C3. One reading posted with an aware timestamp (Python parses
    ["2024-01-01T00:00:00Z"] to one) is a store on which the query raises
    [TypeError] at the age test, although the record has the wanted metric,
    lies at the center and is inside the window.  The listing handler
    raises on that store as well, with and without a center. *)
Theorem filter_raises_on_aware_timestamp {fp : float_arith} :
  store_with_aware_reading
  = [stored_reading "b" new_year_2024 (Aware new_year_2024 0) 40%R (-74)%R]
  /\ _filter_user_observations store_with_aware_reading new_year_2024
       40%R (-74)%R (Some temperature) 1 75%R
     = Raise TypeError
  /\ fst (list_observations new_year_2024 new_year_2024 (Some temperature)
            (Some 40%R) (Some (-74)%R) 75%R 1 store_with_aware_reading)
     = Raise TypeError
  /\ fst (list_observations new_year_2024 new_year_2024 None
            None None 100%R 72 store_with_aware_reading)
     = Raise TypeError.
Proof.
  repeat split; reflexivity.
Qed.

(** C5. After a naive reading at (40, -74) and an aware reading elsewhere
    were posted, the query centered on the first, with a window that covers
    it and its metric, raises [TypeError] and so includes no record.  The
    distance of the first record to the center is the distance of a
    coordinate to itself, which returns where zero stays zero, as on IEEE
    doubles. *)
Theorem matching_record_lost_to_aware_timestamp {fp : float_arith} :
  zero_preserving fp ->
  store_with_both_readings
  = [stored_reading "a" new_year_2024 (Naive new_year_2024) 40%R (-74)%R;
     stored_reading "b" new_year_2024 (Aware new_year_2024 0) 10%R 10%R]
  /\ recent_enough new_year_2024 1
       (stored_reading "a" new_year_2024 (Naive new_year_2024) 40%R (-74)%R)
     = true
  /\ _filter_user_observations store_with_both_readings new_year_2024
       40%R (-74)%R (Some temperature) 1 75%R
     = Raise TypeError.
Proof.
  intros Hz.
  split; [reflexivity |]; split; [reflexivity |].
  apply (filter_user_observations_raises_at
           [stored_reading "a" new_year_2024 (Naive new_year_2024)
              40%R (-74)%R]
           (stored_reading "b" new_year_2024 (Aware new_year_2024 0)
              10%R 10%R)
           []).
  - repeat constructor.
  - constructor; [| constructor]; intros _.
    unfold distance_returns; cbn [latitude longitude stored_reading].
    rewrite (haversine_same _ _ Hz); reflexivity.
  - reflexivity.
  - reflexivity.
Qed.

Lemma matching_record_lost_to_aware_timestamp_witness :
  _filter_user_observations (fp := exact_reals) store_with_both_readings
    new_year_2024 40%R (-74)%R (Some temperature) 1 75%R
  = Raise TypeError.
Proof.
  apply (matching_record_lost_to_aware_timestamp (fp := exact_reals)).
  exact exact_reals_zero_preserving.
Defined.

(** ** [list_observations] *)

Lemma age_only_test (wanted : option MetricKey) (now hours : Z)
    (obs : ObservationRecord) (too_old : bool) :
  metric_matches wanted obs = true ->
  dt_lt (timestamp obs) (Naive (now - hours * 3600000000)) = Ok too_old ->
  selected_without_center wanted now hours obs = negb too_old.
Proof.
  intros Hm Hage; unfold selected_without_center; rewrite Hm.
  apply age_test_Ok in Hage as [_ ->]; reflexivity.
Qed.

(** With a coordinate missing, the loop of the handler is the loop without
    any center. *)
Lemma list_loop_one_coordinate {fp : float_arith}
    (center_lat center_lon : option R)
    (wanted : option MetricKey) (cutoff : datetime) (radius_km : R)
    (data filtered : list ObservationRecord) :
  center_lat = None \/ center_lon = None ->
  list_loop center_lat center_lon wanted cutoff radius_km data filtered
  = list_loop None None wanted cutoff radius_km data filtered.
Proof.
  intros Hmissing; revert filtered.
  induction data as [| obs rest IH]; intros filtered; cbn [list_loop];
    [reflexivity |].
  destruct (metric_differs wanted obs); [apply IH |].
  destruct (dt_lt (timestamp obs) cutoff) as [[|] | s | e]; cbn [bind];
    try reflexivity; [apply IH |].
  destruct Hmissing as [-> | ->]; [apply IH |].
  destruct center_lat; apply IH.
Qed.

(** Whenever the loop without a center runs to its end, it has appended the
    records that pass the metric and age conditions, in store order. *)
Lemma list_loop_no_center_Ok {fp : float_arith}
    (wanted : option MetricKey) (now hours : Z)
    (radius_km : R) (data filtered out : list ObservationRecord) :
  list_loop None None wanted (Naive (now - hours * 3600000000)) radius_km
    data filtered = Ok out ->
  out = filtered ++ filter (selected_without_center wanted now hours) data.
Proof.
  revert filtered; induction data as [| obs rest IH];
    cbn [list_loop filter]; intros filtered H.
  - inversion H; rewrite app_nil_r; reflexivity.
  - rewrite metric_differs_matches in H.
    destruct (metric_matches wanted obs) eqn:Hm; cbn [negb] in H.
    + destruct (dt_lt (timestamp obs) _) as [too_old | s | e] eqn:Hage;
        cbn [bind] in H; try discriminate.
      rewrite (age_only_test _ _ _ _ _ Hm Hage).
      destruct too_old; cbn [negb]; [apply IH, H |].
      rewrite (IH _ H), <- app_assoc; reflexivity.
    + unfold selected_without_center at 1; rewrite Hm; apply IH, H.
Qed.

Lemma list_loop_no_center_returns {fp : float_arith}
    (wanted : option MetricKey) (c : Z)
    (radius_km : R) (data filtered : list ObservationRecord) :
  naive_timestamps data ->
  exists out,
    list_loop None None wanted (Naive c) radius_km data filtered = Ok out.
Proof.
  intros Hall; revert filtered.
  induction Hall as [| obs rest Hobs Hrest IH]; cbn [list_loop];
    intros filtered.
  - eexists; reflexivity.
  - destruct (metric_differs wanted obs); [apply IH |].
    rewrite (dt_lt_naive _ (Naive c) Hobs eq_refl); cbn [bind].
    destruct (_ <? _); apply IH.
Qed.

(** C10. A listing request with exactly one of latitude and longitude runs
    as the same request with neither: same outcome, same store.  Whenever
    that request returns, its records are those of the store that pass the
    metric and age conditions, ascending by timestamp with ties in store
    order; and it returns on every store of naive timestamps. *)
Theorem one_coordinate_lists_without_center {fp : float_arith}
    (store : list ObservationRecord) (now_inner now : Z)
    (wanted : option MetricKey) (coordinate radius_km : R) (hours : Z) :
  list_observations now_inner now wanted (Some coordinate) None
    radius_km hours store
  = list_observations now_inner now wanted None None radius_km hours store
  /\ list_observations now_inner now wanted None (Some coordinate)
       radius_km hours store
     = list_observations now_inner now wanted None None radius_km hours store
  /\ (forall out,
        fst (list_observations now_inner now wanted None None
               radius_km hours store) = Ok out ->
        Permutation
          (filter (selected_without_center wanted now hours) store) out
        /\ StronglySorted not_later out
        /\ forall k,
             at_instant k out
             = at_instant k
                 (filter (selected_without_center wanted now hours) store))
  /\ (naive_timestamps store ->
      exists out,
        fst (list_observations now_inner now wanted None None
               radius_km hours store) = Ok out).
Proof.
  unfold list_observations, hbind, read_store, lift, list_observations_on;
    cbn [bind fst]; rewrite cutoff_is_naive.
  split; [| split; [| split]].
  - rewrite (list_loop_one_coordinate (Some coordinate) None); auto.
  - rewrite (list_loop_one_coordinate None (Some coordinate)); auto.
  - intros out H; apply bind_Ok in H as [filtered [Hloop Hsort]].
    apply list_loop_no_center_Ok in Hloop; cbn [app] in Hloop; subst filtered.
    split; [apply (sorted_perm _ _ _ Hsort) |].
    split; [apply (sorted_order _ _ _ Hsort) |].
    intros k; apply (sorted_stable _ _ _ k Hsort).
  - intros Hnaive.
    destruct (list_loop_no_center_returns wanted (now - hours * 3600000000)
                radius_km store [] Hnaive) as [filtered Hloop].
    rewrite Hloop; cbn [bind].
    apply sorted_returns.
    rewrite (list_loop_no_center_Ok _ _ _ _ _ _ _ Hloop); cbn [app].
    apply Forall_forall; intros obs Hin.
    apply filter_In in Hin as [Hin _].
    unfold naive_timestamps in Hnaive; rewrite Forall_forall in Hnaive.
    apply Hnaive, Hin.
Qed.

Lemma one_coordinate_lists_without_center_witness :
  exists out,
    fst (list_observations (fp := exact_reals) new_year_2024 new_year_2024
           (Some temperature) None None 100%R 72
           [stored_reading "a" new_year_2024 (Naive new_year_2024)
              40%R (-74)%R])
    = Ok out.
Proof.
  apply (one_coordinate_lists_without_center (fp := exact_reals)
           [stored_reading "a" new_year_2024 (Naive new_year_2024)
              40%R (-74)%R]
           new_year_2024 new_year_2024 (Some temperature) 40%R 100%R 72).
  repeat constructor.
Defined.

(** ** [add_observation] and the store *)

(** What [add_observation] does to the store and what it returns. *)
Lemma add_observation_appends (uuid : string) (now : Z)
    (obs : BaseObservation) (store : list ObservationRecord) :
  exists record,
    add_observation uuid now obs store = (Ok record, store ++ [record])
    /\ id record = uuid
    /\ timestamp record = obs_timestamp obs
    /\ source record = Some (or_default (obs_source obs) "user").
Proof.
  eexists; repeat split.
Qed.

(** C9. Posting an observation whose source is absent (or null) or the
    empty string stores and returns a record whose source is ["user"];
    posting one with a non-empty source stores and returns that source
    unchanged.  The returned record is the one appended to the store. *)
Theorem default_source_is_user (uuid : string) (now : Z)
    (obs : BaseObservation) (store : list ObservationRecord) :
  exists record,
    add_observation uuid now obs store = (Ok record, store ++ [record])
    /\ (obs_source obs = None \/ obs_source obs = Some ""%string ->
        source record = Some "user"%string)
    /\ (forall s, obs_source obs = Some s -> s <> ""%string ->
        source record = Some s).
Proof.
  destruct (add_observation_appends uuid now obs store)
    as (record & Hrun & _ & _ & Hsource).
  exists record; split; [exact Hrun |]; rewrite Hsource; split.
  - intros [-> | ->]; reflexivity.
  - intros s -> Hs; destruct s; [congruence | reflexivity].
Qed.

Lemma default_source_is_user_witness :
  exists record,
    add_observation "a" new_year_2024
      (reading (Naive new_year_2024) 40%R (-74)%R) []
    = (Ok record, [record])
    /\ source record = Some "user"%string.
Proof.
  destruct (default_source_is_user "a" new_year_2024
              (reading (Naive new_year_2024) 40%R (-74)%R) [])
    as (record & Hrun & Hdefault & _).
  exists record; split; [exact Hrun |].
  apply Hdefault; left; reflexivity.
Defined.

Section ApplicationFacts.
Context {fp : float_arith}.
Variable fromisoformat : string -> option datetime.
Variable open_meteo : forecast_params -> http_reply forecast_json.
Variable geocoding_api : geocode_params -> http_reply geocode_json.

Lemma lift_keeps_store {A : Type} (c : outcome A)
    (store : list ObservationRecord) :
  snd (lift c store) = store.
Proof. reflexivity. Qed.

Lemma hmap_store {A B : Type} (f : A -> B) (c : handler A)
    (store : list ObservationRecord) :
  snd (hmap f c store) = snd (c store).
Proof.
  unfold hmap, hbind, hret.
  destruct (c store) as [[a | s | e] store']; reflexivity.
Qed.

Lemma timeseries_keeps_store (now_fetch now_filter : Z) (m : MetricKey)
    (lat lon : R) (hours : Z) (include : bool)
    (store : list ObservationRecord) :
  snd (timeseries fromisoformat open_meteo now_fetch now_filter
         m lat lon hours include store) = store.
Proof.
  unfold timeseries, hbind, lift, read_store, hret.
  destruct (_fetch_hourly_data _ _ _ _ _ _ _) as [series | s | e];
    try reflexivity.
  destruct include; [| reflexivity].
  destruct (_filter_user_observations _ _ _ _ _ _ _); reflexivity.
Qed.

(** One request: a POST leaves the store with one more record at its end,
    every other request leaves the store as it was. *)
Lemma handle_store (req : request) (env : ambient)
    (store : list ObservationRecord) :
  match req with
  | POST_observations obs =>
      exists record,
        handle fromisoformat open_meteo geocoding_api req env store
        = (Ok (Created record), store ++ [record])
  | _ =>
      snd (handle fromisoformat open_meteo geocoding_api req env store)
      = store
  end.
Proof.
  destruct req; cbn [handle]; try reflexivity.
  - rewrite hmap_store; apply lift_keeps_store.
  - rewrite hmap_store; apply timeseries_keeps_store.
  - rewrite hmap_store; reflexivity.
  - eexists; reflexivity.
Qed.

Lemma handle_extends (req : request) (env : ambient)
    (store : list ObservationRecord) :
  exists added,
    snd (handle fromisoformat open_meteo geocoding_api req env store)
    = store ++ added
    /\ List.length added = (if is_post req then 1 else 0)%nat.
Proof.
  pose proof (handle_store req env store) as H.
  destruct req; cbn [is_post];
    try (exists []; rewrite app_nil_r; split; [exact H | reflexivity]).
  destruct H as [record ->]; exists [record]; split; reflexivity.
Qed.

Lemma run_extends (trace : list (request * ambient))
    (store : list ObservationRecord) :
  exists added,
    run fromisoformat open_meteo geocoding_api trace store = store ++ added
    /\ List.length added
       = List.length (filter (fun step => is_post (fst step)) trace).
Proof.
  revert store.
  induction trace as [| [req env] rest IH]; intros store; cbn [run].
  - exists []; rewrite app_nil_r; split; reflexivity.
  - destruct (handle_extends req env store) as (first & Hfirst & Hlen).
    rewrite Hfirst.
    destruct (IH (store ++ first)) as (later & Hlater & Hcount).
    exists (first ++ later); rewrite Hlater, app_assoc; split;
      [reflexivity |].
    rewrite length_app, Hlen, Hcount; cbn [filter fst].
    destruct (is_post req); reflexivity.
Qed.

Lemma run_app (before after : list (request * ambient))
    (store : list ObservationRecord) :
  run fromisoformat open_meteo geocoding_api (before ++ after) store
  = run fromisoformat open_meteo geocoding_api after
      (run fromisoformat open_meteo geocoding_api before store).
Proof.
  revert store.
  induction before as [| [req env] rest IH]; intros store; cbn [run app];
    [reflexivity | apply IH].
Qed.

(** C8. The store only grows.  A POST to [/observations] extends the store
    by exactly one record, at its end, and answers with that record; every
    other request (health, root, metrics, geocode, timeseries, observation
    listing), whether it returns or raises, leaves the store as it was.
    Hence, along any sequence of requests, the store at one point is a
    prefix of the store at every later point, and the records added are as
    many as the POSTs handled in between. *)
Theorem store_only_grows :
  (forall req env store,
     match req with
     | POST_observations obs =>
         exists record,
           handle fromisoformat open_meteo geocoding_api req env store
        = (Ok (Created record), store ++ [record])
     | _ =>
      snd (handle fromisoformat open_meteo geocoding_api req env store)
      = store
     end)
  /\ (forall earlier later store,
        exists added,
          run fromisoformat open_meteo geocoding_api (earlier ++ later) store
          = run fromisoformat open_meteo geocoding_api earlier store
            ++ added
          /\ List.length added
             = List.length (filter (fun step => is_post (fst step)) later)).
Proof.
  split; [exact handle_store |].
  intros earlier later store; rewrite run_app; apply run_extends.
Qed.
End ApplicationFacts.

(** ** [geocode] *)

Section GeocodeFacts.
Variable geocoding_api : geocode_params -> http_reply geocode_json.

Lemma GeocodeResult_of_complete (item : geocode_item) :
  has_required_keys item ->
  exists result, GeocodeResult_of item = Ok result /\ same_place item result.
Proof.
  intros (Hname & Hlat & Hlon); unfold GeocodeResult_of.
  destruct (item_name item) as [n |] eqn:En; [| congruence].
  destruct (item_latitude item) as [la |] eqn:Ela; [| congruence].
  destruct (item_longitude item) as [lo |] eqn:Elo; [| congruence].
  eexists; split; [reflexivity |].
  unfold same_place; cbn; rewrite En, Ela, Elo; repeat split.
Qed.

(** The comprehension maps a list of complete items element by element. *)
Lemma comprehension_complete (items : list geocode_item) :
  Forall has_required_keys items ->
  exists results,
    comprehension GeocodeResult_of items = Ok results
    /\ Forall2 same_place items results.
Proof.
  intros Hall; induction Hall as [| item rest Hitem Hrest IH];
    cbn [comprehension].
  - exists []; split; [reflexivity | constructor].
  - destruct (GeocodeResult_of_complete item Hitem) as (result & -> & Hsame).
    destruct IH as (results & -> & Hall2); cbn [bind].
    exists (result :: results); split; [reflexivity |].
    constructor; assumption.
Qed.

Lemma geocode_on_reply (query : string) (count : Z) (json : geocode_json) :
  geocoding_api (geocode_request query count) = Reply json ->
  geocode geocoding_api query count
  = comprehension GeocodeResult_of (provider_results json).
Proof.
  unfold geocode, geocode_request; cbv zeta; intros ->.
  destruct json as [[[items |]] |]; reflexivity.
Qed.

(** C7. For every search the provider answers: when each item of its list
    carries the three keys the provider always sends, the adapter returns
    one result per item, in the provider's order, each result holding the
    keys of its item; and when the provider's list is empty, or the results
    key or the whole body is missing, the adapter returns the empty list. *)
Theorem geocode_maps_provider_results (query : string) (count : Z)
    (json : geocode_json) :
  geocoding_api (geocode_request query count) = Reply json ->
  (Forall has_required_keys (provider_results json) ->
   exists results,
     geocode geocoding_api query count = Ok results
     /\ Forall2 same_place (provider_results json) results)
  /\ (provider_results json = [] ->
      geocode geocoding_api query count = Ok []).
Proof.
  intros Hreply; rewrite (geocode_on_reply _ _ _ Hreply); split.
  - apply comprehension_complete.
  - intros ->; reflexivity.
Qed.
End GeocodeFacts.

Lemma geocode_maps_provider_results_witness :
  geocode geocoding_nothing "Springfield" 3 = Ok []
  /\ exists results,
       geocode geocoding_springfield "Springfield" 3 = Ok results
       /\ Forall2 same_place [springfield_item] results.
Proof.
  split.
  - apply (geocode_maps_provider_results geocoding_nothing "Springfield" 3
             (Some {| json_results := Some [] |})); reflexivity.
  - apply (geocode_maps_provider_results geocoding_springfield
             "Springfield" 3
             (Some {| json_results := Some [springfield_item] |}));
      [reflexivity |].
    repeat constructor; discriminate.
Defined.

(** * Further facts *)

(** ** [sorted] on lists that are already in order, and under a filter *)

Section SortedMore.
Context {A : Type}.
Variable key : A -> datetime.

(** An element that is not later than any element of the list is placed
    in front of it. *)
Lemma insert_sorted_front (x : A) (l : list A) :
  is_naive (key x) = true ->
  Forall (fun a => is_naive (key a) = true) l ->
  Forall (key_le key x) l ->
  insert_sorted key x l = Ok (x :: l).
Proof.
  intros Hx Hnaive Hle; destruct l as [| y rest]; [reflexivity |].
  cbn [insert_sorted].
  inversion Hnaive as [| ? ? Hy _]; inversion Hle as [| ? ? Hxy _]; subst.
  rewrite (dt_lt_naive _ _ Hy Hx); cbn [bind].
  unfold key_le in Hxy.
  destruct (Z.ltb_spec (dt_key (key y)) (dt_key (key x)));
    [lia | reflexivity].
Qed.

(** Sorting a list that is in order gives the list back. *)
Lemma sorted_of_ordered (l : list A) :
  Forall (fun a => is_naive (key a) = true) l ->
  StronglySorted (key_le key) l ->
  sorted key l = Ok l.
Proof.
  intros Hnaive Hs; induction Hs as [| x rest Hrest IH Hall];
    cbn [sorted]; [reflexivity |].
  inversion Hnaive as [| ? ? Hx Hn]; subst.
  rewrite (IH Hn); cbn [bind].
  apply insert_sorted_front; assumption.
Qed.

Lemma insert_sorted_dropped (p : A -> bool) (x : A) (l placed : list A) :
  p x = false ->
  insert_sorted key x l = Ok placed -> filter p placed = filter p l.
Proof.
  intros Hp; revert placed; induction l as [| y rest IH];
    cbn [insert_sorted]; intros placed H.
  - inversion H; cbn [filter]; rewrite Hp; reflexivity.
  - destruct (dt_lt (key y) (key x)) as [[|] | s | e]; cbn [bind] in H;
      try discriminate.
    + destruct (insert_sorted key x rest) as [r | s | e]; cbn [bind] in H;
        try discriminate.
      inversion H; cbn [filter]; rewrite (IH r eq_refl); reflexivity.
    + inversion H; cbn [filter]; rewrite Hp; reflexivity.
Qed.

Lemma Forall_filter_keep (P : A -> Prop) (p : A -> bool) (l : list A) :
  Forall P l -> Forall P (filter p l).
Proof.
  intros H; apply Forall_forall; intros a Ha.
  apply filter_In in Ha as [Ha _].
  rewrite Forall_forall in H; apply H, Ha.
Qed.

Lemma insert_sorted_kept (p : A -> bool) (x : A) (l placed : list A) :
  p x = true ->
  is_naive (key x) = true ->
  Forall (fun a => is_naive (key a) = true) l ->
  StronglySorted (key_le key) l ->
  insert_sorted key x l = Ok placed ->
  insert_sorted key x (filter p l) = Ok (filter p placed).
Proof.
  intros Hp Hx Hnaive Hs; revert placed.
  induction Hs as [| y rest Hrest IH Hall]; cbn [insert_sorted];
    intros placed H.
  - inversion H; cbn [filter]; rewrite Hp; reflexivity.
  - inversion Hnaive as [| ? ? Hy Hn]; subst.
    rewrite (dt_lt_naive _ _ Hy Hx) in H; cbn [bind] in H.
    destruct (Z.ltb_spec (dt_key (key y)) (dt_key (key x))) as [Hlt | Hge].
    + destruct (insert_sorted key x rest) as [r | s | e] eqn:Hr;
        cbn [bind] in H; try discriminate.
      inversion H; subst placed; cbn [filter].
      specialize (IH Hn r eq_refl).
      destruct (p y); [| exact IH].
      cbn [insert_sorted]; rewrite (dt_lt_naive _ _ Hy Hx); cbn [bind].
      destruct (Z.ltb_spec (dt_key (key y)) (dt_key (key x))); [| lia].
      rewrite IH; reflexivity.
    + inversion H; subst placed.
      change (filter p (x :: y :: rest)) with
        (if p x then x :: filter p (y :: rest) else filter p (y :: rest)).
      rewrite Hp.
      apply insert_sorted_front; [exact Hx | |].
      * apply Forall_filter_keep; exact Hnaive.
      * apply Forall_filter_keep; constructor; [exact Hge |].
        eapply Forall_impl; [| exact Hall].
        unfold key_le; intros z Hz; lia.
Qed.

(** Filtering commutes with sorting. *)
Lemma sorted_filter (p : A -> bool) (l out : list A) :
  Forall (fun a => is_naive (key a) = true) l ->
  sorted key l = Ok out ->
  sorted key (filter p l) = Ok (filter p out).
Proof.
  intros Hnaive; revert out.
  induction Hnaive as [| x rest Hx Hn IH]; cbn [sorted]; intros out H.
  - inversion H; reflexivity.
  - destruct (sorted key rest) as [t | s | e] eqn:Ht; cbn [bind] in H;
      try discriminate.
    specialize (IH t eq_refl); cbn [filter].
    destruct (p x) eqn:Hp.
    + cbn [sorted]; rewrite IH; cbn [bind].
      apply insert_sorted_kept; try assumption.
      * eapply Permutation_Forall; [apply (sorted_perm _ _ _ Ht) | exact Hn].
      * apply (sorted_order _ _ _ Ht).
    + rewrite IH, (insert_sorted_dropped p x t out Hp H); reflexivity.
Qed.
End SortedMore.

(** ** The observation query in closed form *)

Section QueryFacts.
Context {fp : float_arith}.

(** Where no age test and no distance raises, the query is the sort of the
    selected records. *)
Lemma filter_user_observations_eq (store : list ObservationRecord)
    (now : Z) (lat lon : R) (wanted : option MetricKey) (hours : Z)
    (radius_km : R) :
  compared_naive wanted store ->
  distances_return lat lon wanted now hours store ->
  _filter_user_observations store now lat lon wanted hours radius_km
  = sorted timestamp
      (filter (selected lat lon wanted now hours radius_km) store).
Proof.
  intros Hall Hdist.
  unfold _filter_user_observations; cbv zeta; rewrite cutoff_is_naive.
  destruct (filter_loop_returns lat lon wanted now hours radius_km store []
              Hall Hdist) as [matches Hloop].
  rewrite Hloop; cbn [bind].
  apply filter_loop_Ok in Hloop; cbn [app] in Hloop; rewrite Hloop.
  reflexivity.
Qed.

Lemma selected_all_naive (lat lon : R) (wanted : option MetricKey)
    (now hours : Z) (radius_km : R) (l : list ObservationRecord) :
  Forall (fun obs => is_naive (timestamp obs) = true)
    (filter (selected lat lon wanted now hours radius_km) l).
Proof.
  apply Forall_forall; intros obs Hin.
  apply filter_In in Hin as [_ Hsel].
  eapply selected_naive; exact Hsel.
Qed.

(** A store of naive timestamps has every compared timestamp naive. *)
Lemma naive_compared (wanted : option MetricKey)
    (store : list ObservationRecord) :
  naive_timestamps store -> compared_naive wanted store.
Proof.
  intros Hnaive; eapply Forall_impl; [| exact Hnaive].
  intros obs Hn _; exact Hn.
Qed.

Lemma recent_enough_narrower (now h1 h2 : Z) (obs : ObservationRecord) :
  h1 <= h2 ->
  recent_enough now h1 obs = true -> recent_enough now h2 obs = true.
Proof.
  unfold recent_enough; destruct (timestamp obs); [| discriminate].
  intros Hh H; apply Z.leb_le in H; apply Z.leb_le; lia.
Qed.

(** The distances a query computes are computed by every query with a
    wider window. *)
Lemma distances_return_narrower (lat lon : R) (wanted : option MetricKey)
    (now h1 h2 : Z) (store : list ObservationRecord) :
  h1 <= h2 ->
  distances_return lat lon wanted now h2 store ->
  distances_return lat lon wanted now h1 store.
Proof.
  unfold distances_return, selected_without_center; intros Hh Hd.
  eapply Forall_impl; [| exact Hd].
  intros obs Hobs Hsel; apply Hobs.
  apply andb_true_iff in Hsel as [Hm Ha].
  rewrite Hm, (recent_enough_narrower _ _ _ _ Hh Ha); reflexivity.
Qed.

Lemma within_radius_narrower (lat lon r1 r2 : R) (obs : ObservationRecord) :
  (r1 <= r2)%R ->
  within_radius lat lon r1 obs = true -> within_radius lat lon r2 obs = true.
Proof.
  unfold within_radius.
  destruct (_haversine_distance_km _ _ _ _) as [d | s | e]; try discriminate.
  intros Hr; destruct (Rle_dec d r1); [| discriminate].
  destruct (Rle_dec d r2); [reflexivity | lra].
Qed.

Lemma selected_narrower (lat lon : R) (wanted : option MetricKey)
    (now h1 h2 : Z) (r1 r2 : R) (obs : ObservationRecord) :
  h1 <= h2 -> (r1 <= r2)%R ->
  selected lat lon wanted now h1 r1 obs = true ->
  selected lat lon wanted now h2 r2 obs = true.
Proof.
  unfold selected; intros Hh Hr H.
  apply andb_true_iff in H as [H Hd]; apply andb_true_iff in H as [Hm Ha].
  rewrite Hm, (recent_enough_narrower _ _ _ _ Hh Ha),
    (within_radius_narrower _ _ _ _ _ Hr Hd); reflexivity.
Qed.
End QueryFacts.

Lemma filter_narrowed {A : Type} (p q : A -> bool) (l : list A) :
  (forall a, p a = true -> q a = true) ->
  filter p (filter q l) = filter p l.
Proof.
  intros Hpq; induction l as [| a rest IH]; cbn [filter]; [reflexivity |].
  destruct (q a) eqn:Hq; cbn [filter].
  - rewrite IH; reflexivity.
  - destruct (p a) eqn:Hp; [| exact IH].
    rewrite (Hpq a Hp) in Hq; discriminate.
Qed.

Lemma filter_both {A : Type} (p q : A -> bool) (l : list A) :
  filter p (filter q l) = filter (fun a => p a && q a) l.
Proof.
  induction l as [| a rest IH]; cbn [filter]; [reflexivity |].
  destruct (q a); cbn [filter]; rewrite ?andb_true_r, ?andb_false_r;
    [destruct (p a) |]; rewrite IH; reflexivity.
Qed.

(** Over the reals the distance from (40, -74) returns for the sample
    reading stored there. *)
Lemma sample_distances_return (wanted : option MetricKey) (now hours : Z) :
  distances_return (fp := exact_reals) 40%R (-74)%R wanted now hours
    [stored_reading "a" new_year_2024 (Naive new_year_2024) 40%R (-74)%R].
Proof.
  constructor; [| constructor]; intros _.
  unfold distance_returns; cbn [latitude longitude stored_reading].
  rewrite (haversine_same _ _ exact_reals_zero_preserving); reflexivity.
Qed.

(** X1. On every store whose records carry naive timestamps, and for which
    every distance the query computes returns, the query returns, and its
    result holds exactly the records of the store that satisfy the metric,
    age and distance conditions, each as often as the store holds it,
    ascending by timestamp, records of one instant in the order of the
    store. *)
Theorem query_on_naive_store {fp : float_arith}
    (store : list ObservationRecord)
    (now : Z) (lat lon : R) (wanted : option MetricKey) (hours : Z)
    (radius_km : R) :
  naive_timestamps store ->
  distances_return lat lon wanted now hours store ->
  exists out,
    _filter_user_observations store now lat lon wanted hours radius_km
    = Ok out
    /\ Permutation
         (filter (selected lat lon wanted now hours radius_km) store) out
    /\ StronglySorted not_later out
    /\ forall k,
         at_instant k out
         = at_instant k
             (filter (selected lat lon wanted now hours radius_km) store).
Proof.
  intros Hnaive Hdist.
  destruct (filter_user_observations_returns store now lat lon wanted hours
              radius_km (naive_compared wanted store Hnaive) Hdist)
    as [out Hout].
  exists out; split; [exact Hout |].
  apply filter_user_observations_Ok; exact Hout.
Qed.

Lemma query_on_naive_store_witness :
  exists out,
    _filter_user_observations (fp := exact_reals)
      [stored_reading "a" new_year_2024 (Naive new_year_2024) 40%R (-74)%R]
      new_year_2024 40%R (-74)%R (Some temperature) 1 75%R
    = Ok out
    /\ Permutation
         (filter (selected (fp := exact_reals) 40%R (-74)%R
                    (Some temperature) new_year_2024 1 75%R)
            [stored_reading "a" new_year_2024 (Naive new_year_2024)
               40%R (-74)%R])
         out
    /\ StronglySorted not_later out
    /\ forall k,
         at_instant k out
         = at_instant k
             (filter (selected (fp := exact_reals) 40%R (-74)%R
                        (Some temperature) new_year_2024 1 75%R)
                [stored_reading "a" new_year_2024 (Naive new_year_2024)
                   40%R (-74)%R]).
Proof.
  apply (query_on_naive_store (fp := exact_reals)
           [stored_reading "a" new_year_2024 (Naive new_year_2024)
              40%R (-74)%R]
           new_year_2024 40%R (-74)%R (Some temperature) 1 75%R).
  - repeat constructor.
  - apply sample_distances_return.
Defined.

(** X2. The query ends in one of three ways: it returns, it raises
    [TypeError], or it raises [ValueError].  It returns exactly when every
    record of the store that has the wanted metric (every record, when no
    metric is given) carries a naive timestamp, and the distance returns
    for every such record that is inside the age window.  Aware timestamps
    on records of another metric do no harm, nor do failing distances to
    records of another metric or outside the window. *)
Theorem query_returns_iff_nothing_raises {fp : float_arith}
    (store : list ObservationRecord)
    (now : Z) (lat lon : R) (wanted : option MetricKey) (hours : Z)
    (radius_km : R) :
  ((exists out,
      _filter_user_observations store now lat lon wanted hours radius_km
      = Ok out)
   \/ _filter_user_observations store now lat lon wanted hours radius_km
      = Raise TypeError
   \/ _filter_user_observations store now lat lon wanted hours radius_km
      = Raise ValueError)
  /\ ((exists out,
         _filter_user_observations store now lat lon wanted hours radius_km
         = Ok out)
      <-> (compared_naive wanted store
           /\ distances_return lat lon wanted now hours store)).
Proof.
  split; [apply filter_user_observations_outcome |]; split.
  - intros [out Hout]; eapply filter_user_observations_Ok_inv; exact Hout.
  - intros [Hnaive Hdist]; apply filter_user_observations_returns; assumption.
Qed.

(** X3. Narrowing a query narrows its result and nothing else: when the
    query with radius [r2] and window [h2] returns [wide], the query with a
    radius [r1 <= r2] and a window [h1 <= h2] (same store, clock, center and
    metric) returns the records of [wide] that satisfy the narrower
    conditions, in the order they have in [wide]. *)
Theorem narrower_query_filters_wider_result {fp : float_arith}
    (store : list ObservationRecord)
    (now : Z) (lat lon : R) (wanted : option MetricKey) (h1 h2 : Z)
    (r1 r2 : R) (wide : list ObservationRecord) :
  h1 <= h2 -> (r1 <= r2)%R ->
  _filter_user_observations store now lat lon wanted h2 r2 = Ok wide ->
  _filter_user_observations store now lat lon wanted h1 r1
  = Ok (filter (selected lat lon wanted now h1 r1) wide).
Proof.
  intros Hh Hr Hwide.
  destruct (filter_user_observations_Ok_inv _ _ _ _ _ _ _ _ Hwide)
    as [Hall Hdist].
  rewrite (filter_user_observations_eq _ _ _ _ _ _ _ Hall Hdist) in Hwide.
  rewrite (filter_user_observations_eq _ _ _ _ _ _ _ Hall
             (distances_return_narrower _ _ _ _ _ _ _ Hh Hdist)).
  rewrite <- (filter_narrowed (selected lat lon wanted now h1 r1)
                (selected lat lon wanted now h2 r2) store)
    by (intros obs; apply selected_narrower; assumption).
  apply sorted_filter; [apply selected_all_naive | exact Hwide].
Qed.

Lemma narrower_query_filters_wider_result_witness :
  exists wide,
    _filter_user_observations (fp := exact_reals)
      [stored_reading "a" new_year_2024 (Naive new_year_2024) 40%R (-74)%R]
      new_year_2024 40%R (-74)%R (Some temperature) 2 75%R
    = Ok wide
    /\ _filter_user_observations (fp := exact_reals)
         [stored_reading "a" new_year_2024 (Naive new_year_2024)
            40%R (-74)%R]
         new_year_2024 40%R (-74)%R (Some temperature) 1 50%R
       = Ok (filter (selected (fp := exact_reals) 40%R (-74)%R
                       (Some temperature) new_year_2024 1 50%R) wide).
Proof.
  destruct (filter_user_observations_returns (fp := exact_reals)
              [stored_reading "a" new_year_2024 (Naive new_year_2024)
                 40%R (-74)%R]
              new_year_2024 40%R (-74)%R (Some temperature) 2 75%R)
    as [wide Hwide];
    [repeat constructor | apply sample_distances_return |].
  exists wide; split; [exact Hwide |].
  apply (narrower_query_filters_wider_result (fp := exact_reals)
           _ _ _ _ _ 1 2 50%R 75%R wide);
    [lia | lra | exact Hwide].
Defined.

(** ** The listing handler with a center *)

Lemma StronglySorted_filter_keep {A : Type} (le : A -> A -> Prop)
    (p : A -> bool) (l : list A) :
  StronglySorted le l -> StronglySorted le (filter p l).
Proof.
  intros Hs; induction Hs as [| x rest Hrest IH Hall]; cbn [filter];
    [constructor |].
  destruct (p x); [| exact IH].
  constructor; [exact IH |].
  apply Forall_forall; intros a Ha; apply filter_In in Ha as [Ha _].
  rewrite Forall_forall in Hall; apply Hall, Ha.
Qed.

Lemma recent_enough_max (a b hours : Z) (obs : ObservationRecord) :
  recent_enough (Z.max a b) hours obs
  = recent_enough b hours obs && recent_enough a hours obs.
Proof.
  unfold recent_enough; destruct (timestamp obs) as [t | t off];
    [| reflexivity].
  destruct (Z.leb_spec (Z.max a b - hours * 3600000000) t);
    destruct (Z.leb_spec (b - hours * 3600000000) t);
    destruct (Z.leb_spec (a - hours * 3600000000) t);
    cbn [andb]; try reflexivity; lia.
Qed.

Section ListingFacts.
Context {fp : float_arith}.

(** With both coordinates the loop of the handler is the loop of the
    query. *)
Lemma list_loop_with_center (lat lon : R) (wanted : option MetricKey)
    (cutoff : datetime) (radius_km : R)
    (data filtered : list ObservationRecord) :
  list_loop (Some lat) (Some lon) wanted cutoff radius_km data filtered
  = filter_loop lat lon wanted cutoff radius_km data filtered.
Proof.
  revert filtered; induction data as [| obs rest IH]; intros filtered;
    cbn [list_loop filter_loop]; [reflexivity |].
  destruct (metric_differs wanted obs); [apply IH |].
  destruct (dt_lt (timestamp obs) cutoff) as [[|] | s | e]; cbn [bind];
    try reflexivity; [apply IH |].
  destruct (_haversine_distance_km _ _ _ _) as [d | s | e]; cbn [bind];
    try reflexivity.
  destruct (Rgt_dec d radius_km); apply IH.
Qed.

Lemma selected_max (lat lon : R) (wanted : option MetricKey)
    (a b hours : Z) (radius_km : R) (obs : ObservationRecord) :
  selected lat lon wanted (Z.max a b) hours radius_km obs
  = selected lat lon wanted b hours radius_km obs
    && selected lat lon wanted a hours radius_km obs.
Proof.
  unfold selected; rewrite recent_enough_max.
  destruct (metric_matches wanted obs), (recent_enough b hours obs),
    (recent_enough a hours obs), (within_radius lat lon radius_km obs);
    reflexivity.
Qed.

(** The distances the first pass computes include those of a query at the
    later clock value. *)
Lemma distances_return_max (lat lon : R) (wanted : option MetricKey)
    (a b hours : Z) (store : list ObservationRecord) :
  distances_return lat lon wanted a hours store ->
  distances_return lat lon wanted (Z.max a b) hours store.
Proof.
  unfold distances_return, selected_without_center; intros Hd.
  eapply Forall_impl; [| exact Hd].
  intros obs Hobs Hsel; apply Hobs.
  rewrite recent_enough_max in Hsel.
  destruct (metric_matches wanted obs), (recent_enough a hours obs),
    (recent_enough b hours obs); try reflexivity; discriminate.
Qed.

(** The distance returned for every selected record. *)
Lemma selected_distance_returns (lat lon : R) (wanted : option MetricKey)
    (now hours : Z) (radius_km : R) (obs : ObservationRecord) :
  selected lat lon wanted now hours radius_km obs = true ->
  distance_returns lat lon obs = true.
Proof.
  unfold selected, within_radius, distance_returns.
  destruct (_haversine_distance_km _ _ _ _); [reflexivity | |];
    rewrite andb_false_r; discriminate.
Qed.

(** The listing with a center, on the store it reads: when the first pass
    returns, one query at the later clock value; when it fails, its
    failure. *)
Lemma list_observations_on_center (store : list ObservationRecord)
    (now_inner now : Z) (wanted : option MetricKey) (lat lon radius_km : R)
    (hours : Z) :
  list_observations_on store now_inner now wanted (Some lat) (Some lon)
    radius_km hours
  = bind (_filter_user_observations store now_inner lat lon wanted hours
            radius_km)
      (fun _ => _filter_user_observations store (Z.max now_inner now)
                  lat lon wanted hours radius_km).
Proof.
  unfold list_observations_on.
  destruct (_filter_user_observations store now_inner lat lon wanted hours
              radius_km) as [data | s | e] eqn:Hfirst; cbn [bind];
    try reflexivity.
  destruct (filter_user_observations_Ok_inv _ _ _ _ _ _ _ _ Hfirst)
    as [Hall Hdist].
  rewrite (filter_user_observations_eq _ _ _ _ _ _ _ Hall Hdist) in Hfirst.
  rewrite (filter_user_observations_eq _ (Z.max now_inner now) _ _ _ _ _
             Hall (distances_return_max _ _ _ _ now _ _ Hdist)).
  rewrite cutoff_is_naive, list_loop_with_center.
  assert (Hsel : Forall (fun obs => selected lat lon wanted now_inner hours
                                      radius_km obs = true) data).
  { eapply Permutation_Forall; [apply (sorted_perm _ _ _ Hfirst) |].
    apply Forall_forall; intros obs Hin.
    apply filter_In in Hin as [_ Hs]; exact Hs. }
  assert (Hnaive : Forall (fun obs => is_naive (timestamp obs) = true) data).
  { eapply Forall_impl; [| exact Hsel].
    intros obs Hs; eapply selected_naive; exact Hs. }
  destruct (filter_loop_returns lat lon wanted now hours radius_km data [])
    as [filtered Hloop].
  { apply naive_compared; exact Hnaive. }
  { eapply Forall_impl; [| exact Hsel].
    intros obs Hs _; eapply selected_distance_returns; exact Hs. }
  rewrite Hloop; cbn [bind].
  apply filter_loop_Ok in Hloop; cbn [app] in Hloop; subst filtered.
  rewrite sorted_of_ordered.
  - symmetry.
    rewrite (filter_ext _ _ (selected_max lat lon wanted now_inner now
                               hours radius_km)).
    rewrite <- filter_both.
    apply sorted_filter; [apply selected_all_naive | exact Hfirst].
  - apply Forall_filter_keep; exact Hnaive.
  - apply StronglySorted_filter_keep, (sorted_order _ _ _ Hfirst).
Qed.
End ListingFacts.

(** X4. A listing request with both coordinates filters the store twice, at
    two clock reads, and sorts twice.  When the first pass fails, the
    request fails as it did.  When the first pass returns, the outcome of
    the request is that of one query at the later of the two clock values:
    the second pass only drops the records that aged out between the
    reads, and the second sort changes nothing.  The store is left as it
    was. *)
Theorem listing_with_center_is_one_query {fp : float_arith}
    (store : list ObservationRecord)
    (now_inner now : Z) (wanted : option MetricKey) (lat lon radius_km : R)
    (hours : Z) :
  list_observations now_inner now wanted (Some lat) (Some lon)
    radius_km hours store
  = (bind (_filter_user_observations store now_inner lat lon wanted hours
             radius_km)
       (fun _ => _filter_user_observations store (Z.max now_inner now)
                   lat lon wanted hours radius_km),
     store).
Proof.
  unfold list_observations, hbind, read_store, lift.
  rewrite list_observations_on_center; reflexivity.
Qed.

(** ** Posting, then listing *)

Lemma MetricKey_eqb_refl (m : MetricKey) : MetricKey_eqb m m = true.
Proof. destruct m; reflexivity. Qed.

(** The listing without a center, on a store of naive timestamps: the sort
    of the records that pass the metric and age conditions. *)
Lemma list_observations_on_no_center {fp : float_arith}
    (store : list ObservationRecord)
    (now_inner now : Z) (wanted : option MetricKey) (radius_km : R)
    (hours : Z) :
  naive_timestamps store ->
  list_observations_on store now_inner now wanted None None radius_km hours
  = sorted timestamp (filter (selected_without_center wanted now hours) store).
Proof.
  intros Hnaive; unfold list_observations_on; cbn [bind].
  rewrite cutoff_is_naive.
  destruct (list_loop_no_center_returns wanted (now - hours * 3600000000)
              radius_km store [] Hnaive) as [filtered Hloop].
  rewrite Hloop; cbn [bind].
  apply list_loop_no_center_Ok in Hloop; cbn [app] in Hloop.
  rewrite Hloop; reflexivity.
Qed.

Lemma naive_timestamps_app (store : list ObservationRecord)
    (record : ObservationRecord) :
  naive_timestamps store -> is_naive (timestamp record) = true ->
  naive_timestamps (store ++ [record]).
Proof.
  intros Hs Hr; apply Forall_app; split; [exact Hs |].
  constructor; [exact Hr | constructor].
Qed.

(** X5. An observation that was posted is found again.  On a store of naive
    timestamps, after a POST of an observation with a naive timestamp, a
    listing without coordinates whose window covers that timestamp (at the
    clock value of the listing) and whose metric is the observation's, or
    is absent, returns the created record.  Where zero stays zero, so does
    every listing centered on the observation's coordinate that returns,
    for every radius that is not negative, when the window covers the
    timestamp at both of its clock reads. *)
Theorem posted_observation_is_listed {fp : float_arith}
    (store : list ObservationRecord)
    (uuid : string) (now_post : Z) (obs : BaseObservation) (t : Z)
    (now_inner now : Z) (wanted : option MetricKey) (radius_km : R)
    (hours : Z) :
  naive_timestamps store ->
  obs_timestamp obs = Naive t ->
  wanted = None \/ wanted = Some (obs_metric obs) ->
  now - hours * 3600000000 <= t ->
  exists record,
    add_observation uuid now_post obs store = (Ok record, store ++ [record])
    /\ (exists out,
          fst (list_observations now_inner now wanted None None radius_km
                 hours (store ++ [record])) = Ok out
          /\ In record out)
    /\ (zero_preserving fp ->
        now_inner - hours * 3600000000 <= t -> (0 <= radius_km)%R ->
        forall out,
          fst (list_observations now_inner now wanted
                 (Some (obs_latitude obs)) (Some (obs_longitude obs))
                 radius_km hours (store ++ [record])) = Ok out ->
          In record out).
Proof.
  intros Hnaive Ht Hwanted Hcovers.
  destruct (add_observation_appends uuid now_post obs store)
    as (record & Hrun & _ & Hts & _).
  assert (Hfields : metric record = obs_metric obs
                    /\ latitude record = obs_latitude obs
                    /\ longitude record = obs_longitude obs).
  { unfold add_observation, hbind, append_store, hret in Hrun.
    inversion Hrun as [Hrec]; repeat split. }
  destruct Hfields as (Hmetric & Hlat & Hlon).
  assert (Hn : is_naive (timestamp record) = true)
    by (rewrite Hts, Ht; reflexivity).
  assert (Hm : metric_matches wanted record = true).
  { destruct Hwanted as [-> | ->]; [reflexivity |].
    cbn [metric_matches]; rewrite Hmetric; apply MetricKey_eqb_refl. }
  assert (Hrecent : forall clock, clock - hours * 3600000000 <= t ->
                      recent_enough clock hours record = true).
  { intros clock Hc; unfold recent_enough; rewrite Hts, Ht.
    apply Z.leb_le; exact Hc. }
  pose proof (naive_timestamps_app _ _ Hnaive Hn) as Hnaive'.
  exists record; split; [exact Hrun |]; split.
  - unfold list_observations, hbind, read_store, lift; cbn [fst].
    rewrite (list_observations_on_no_center _ _ _ _ _ _ Hnaive').
    destruct (sorted_returns timestamp
                (filter (selected_without_center wanted now hours)
                   (store ++ [record])))
      as [out Hout].
    { apply Forall_filter_keep; exact Hnaive'. }
    exists out; split; [exact Hout |].
    eapply Permutation_in; [apply (sorted_perm _ _ _ Hout) |].
    apply filter_In; split; [apply in_or_app; right; left; reflexivity |].
    unfold selected_without_center; rewrite Hm, (Hrecent now Hcovers).
    reflexivity.
  - intros Hz Hinner Hradius out.
    unfold list_observations, hbind, read_store, lift; cbn [fst].
    rewrite list_observations_on_center, <- Hlat, <- Hlon.
    intros Hout; apply bind_Ok in Hout as [data [_ Hout]].
    apply (matching_record_included _ _ _ _ _ _ _ Hz) in Hout;
      try assumption.
    + apply in_or_app; right; left; reflexivity.
    + apply Hrecent; lia.
Qed.

Lemma posted_observation_is_listed_witness :
  exists record,
    add_observation "a" new_year_2024
      (reading (Naive new_year_2024) 40%R (-74)%R) []
    = (Ok record, [] ++ [record])
    /\ (exists out,
          fst (list_observations (fp := exact_reals) new_year_2024
                 new_year_2024 (Some temperature) None None 100%R 72
                 ([] ++ [record]))
          = Ok out
          /\ In record out)
    /\ (zero_preserving exact_reals ->
        new_year_2024 - 72 * 3600000000 <= new_year_2024 ->
        (0 <= 100)%R ->
        forall out,
          fst (list_observations (fp := exact_reals) new_year_2024
                 new_year_2024 (Some temperature) (Some 40%R)
                 (Some (-74)%R) 100%R 72 ([] ++ [record]))
          = Ok out ->
          In record out).
Proof.
  apply (posted_observation_is_listed (fp := exact_reals) [] "a"
           new_year_2024 (reading (Naive new_year_2024) 40%R (-74)%R)
           new_year_2024 new_year_2024 new_year_2024 (Some temperature)
           100%R 72).
  - constructor.
  - reflexivity.
  - right; reflexivity.
  - unfold new_year_2024; lia.
Defined.

(** ** Identifiers *)

Section IdentifierFacts.
Context {fp : float_arith}.
Variable fromisoformat : string -> option datetime.
Variable open_meteo : forecast_params -> http_reply forecast_json.
Variable geocoding_api : geocode_params -> http_reply geocode_json.

Lemma handle_ids (req : request) (env : ambient)
    (store : list ObservationRecord) :
  map id (snd (handle fromisoformat open_meteo geocoding_api req env store))
  = map id store ++ (if is_post req then [fresh_uuid env] else []).
Proof.
  pose proof (handle_store fromisoformat open_meteo geocoding_api
                req env store) as H.
  destruct req; cbn [is_post]; try (rewrite H, app_nil_r; reflexivity).
  destruct H as [record H]; rewrite H; cbn [snd].
  unfold handle, hmap, hbind, add_observation, append_store, hret in H.
  inversion H; rewrite map_app; reflexivity.
Qed.

Lemma run_ids (trace : list (request * ambient))
    (store : list ObservationRecord) :
  map id (run fromisoformat open_meteo geocoding_api trace store)
  = map id store ++ posted_uuids trace.
Proof.
  unfold posted_uuids; revert store.
  induction trace as [| [req env] rest IH]; intros store; cbn [run].
  - cbn [filter map]; rewrite app_nil_r; reflexivity.
  - rewrite IH, handle_ids; cbn [filter fst].
    destruct (is_post req); cbn [map snd];
      rewrite <- app_assoc; reflexivity.
Qed.

(** X6. Along any sequence of requests the identifiers in the store are
    those it started with, followed by the identifiers drawn for the POSTs,
    in the order of the POSTs: no request changes or reuses one.  Hence the
    identifiers of the store stay pairwise distinct as long as every POST
    draws an identifier that is neither in the store nor drawn before. *)
Theorem ids_are_the_drawn_uuids (trace : list (request * ambient))
    (store : list ObservationRecord) :
  map id (run fromisoformat open_meteo geocoding_api trace store)
  = map id store ++ posted_uuids trace
  /\ (NoDup (map id store ++ posted_uuids trace) ->
      NoDup (map id (run fromisoformat open_meteo geocoding_api
                       trace store))).
Proof.
  split; [apply run_ids |].
  rewrite run_ids; intros H; exact H.
Qed.
End IdentifierFacts.

Lemma ids_are_the_drawn_uuids_witness :
  NoDup (map id store_with_both_readings).
Proof.
  apply (ids_are_the_drawn_uuids fromisoformat_sample (upstream_serving [] [])
           geocoding_nothing).
  repeat constructor; cbn; intuition discriminate.
Defined.

(** ** The forecast fetcher in closed form *)

Section FetcherMore.
Variable fromisoformat : string -> option datetime.

Lemma parses_aware_of (raw_time : string) (raw_value : option R) :
  parses_aware fromisoformat (raw_time, raw_value)
  = match fromisoformat (replace_Z raw_time) with
    | Some ts => negb (is_naive ts)
    | None => false
    end.
Proof. reflexivity. Qed.

Lemma breaks_loop_of (c : Z) (raw_time : string) (raw_value : option R) :
  breaks_loop fromisoformat c (raw_time, raw_value)
  = match fromisoformat (replace_Z raw_time) with
    | Some (Naive t) => c <? t
    | _ => false
    end.
Proof. reflexivity. Qed.

(** The loop returns when it reaches no aware timestamp. *)
Lemma hourly_loop_returns_reached (c : Z)
    (pairs : list (string * option R)) (acc : list TimeseriesPoint) :
  Forall (fun entry => parses_aware fromisoformat entry = false)
    (before_break fromisoformat c pairs) ->
  hourly_loop fromisoformat (Naive c) pairs acc
  = Ok (acc ++ surviving_points fromisoformat c pairs).
Proof.
  intros Hall.
  assert (Hret : exists out,
            hourly_loop fromisoformat (Naive c) pairs acc = Ok out).
  { revert acc Hall; induction pairs as [| [raw_time raw_value] rest IH];
      intros acc Hall; cbn [hourly_loop]; [eexists; reflexivity |].
    cbn [before_break] in Hall; rewrite breaks_loop_of in Hall.
    destruct (fromisoformat (replace_Z raw_time)) as [[t | t off] |] eqn:Hp;
      cbn [dt_gt dt_lt bind].
    - destruct (c <? t); [eexists; reflexivity |].
      inversion Hall; subst; destruct raw_value; apply IH; assumption.
    - inversion Hall as [| ? ? Hbad _]; subst.
      rewrite parses_aware_of, Hp in Hbad; discriminate.
    - inversion Hall; subst; apply IH; assumption. }
  destruct Hret as [out Hout]; rewrite Hout.
  apply hourly_loop_Ok in Hout; rewrite Hout; reflexivity.
Qed.

(** The loop raises [TypeError] when it reaches an aware timestamp. *)
Lemma hourly_loop_raises_reached (c : Z)
    (pairs : list (string * option R)) (acc : list TimeseriesPoint) :
  Exists (fun entry => parses_aware fromisoformat entry = true)
    (before_break fromisoformat c pairs) ->
  hourly_loop fromisoformat (Naive c) pairs acc = Raise TypeError.
Proof.
  revert acc; induction pairs as [| [raw_time raw_value] rest IH];
    intros acc Hex; cbn [hourly_loop before_break] in *;
    [inversion Hex |].
  rewrite breaks_loop_of in Hex.
  destruct (fromisoformat (replace_Z raw_time)) as [[t | t off] |] eqn:Hp;
    cbn [dt_gt dt_lt bind]; [| reflexivity |].
  - destruct (c <? t); [inversion Hex |].
    inversion Hex as [? ? Hbad | ? ? Hlater]; subst.
    + rewrite parses_aware_of, Hp in Hbad; discriminate.
    + destruct raw_value; apply IH, Hlater.
  - inversion Hex as [? ? Hbad | ? ? Hlater]; subst.
    + rewrite parses_aware_of, Hp in Hbad; discriminate.
    + apply IH, Hlater.
Qed.

Lemma reached_naive_or_aware (c : Z) (pairs : list (string * option R)) :
  Forall (fun entry => parses_aware fromisoformat entry = false)
    (before_break fromisoformat c pairs)
  \/ Exists (fun entry => parses_aware fromisoformat entry = true)
       (before_break fromisoformat c pairs).
Proof.
  induction (before_break fromisoformat c pairs) as [| entry rest IH];
    [left; constructor |].
  destruct IH as [IH | IH]; [| right; apply Exists_cons_tl, IH].
  destruct (parses_aware fromisoformat entry) eqn:Ha.
  - right; apply Exists_cons_hd, Ha.
  - left; constructor; assumption.
Qed.

Lemma combine_app_same {A B : Type} (l1 l2 : list A) (r1 r2 : list B) :
  List.length l1 = List.length r1 ->
  combine (l1 ++ l2) (r1 ++ r2) = combine l1 r1 ++ combine l2 r2.
Proof.
  revert r1; induction l1 as [| a l1 IH]; intros [| b r1] H;
    try discriminate; cbn [app combine]; [reflexivity |].
  rewrite IH by (cbn in H; congruence); reflexivity.
Qed.

(** The fetcher on an upstream that sends two non-empty arrays: the loop,
    then the test for an empty point list. *)
Lemma fetch_on_arrays
    (open_meteo : forecast_params -> http_reply forecast_json)
    (now : Z) (m : MetricKey) (lat lon : R) (hours : Z)
    (timestamps : list string) (values : list (option R)) :
  serves open_meteo m lat lon hours timestamps values ->
  timestamps <> [] -> values <> [] ->
  _fetch_hourly_data fromisoformat open_meteo now m lat lon hours
  = (pts <- hourly_loop fromisoformat
              (Naive (now + hours * 3600000000))
              (combine timestamps values) [] ;;
     match pts with
     | [] => HTTPException 404
     | _ :: _ => Ok (series_of m lat lon hours pts)
     end).
Proof.
  intros (hourly & Hreply & Ht & Hv) Hts Hvs.
  unfold forecast_request in Hreply.
  unfold _fetch_hourly_data; cbv zeta; rewrite Hreply, Ht, Hv.
  destruct timestamps as [| t ts]; [congruence |].
  destruct values as [| v vs]; [congruence |].
  reflexivity.
Qed.

(** The loop stops at a pair that breaks it. *)
Lemma hourly_loop_stops (c : Z) (before after : list (string * option R))
    (late : string * option R) (acc : list TimeseriesPoint) :
  breaks_loop fromisoformat c late = true ->
  hourly_loop fromisoformat (Naive c) (before ++ late :: after) acc
  = hourly_loop fromisoformat (Naive c) before acc.
Proof.
  intros Hlate; revert acc.
  induction before as [| [raw_time raw_value] rest IH]; intros acc;
    cbn [app hourly_loop].
  - destruct late as [raw_time raw_value]; rewrite breaks_loop_of in Hlate.
    destruct (fromisoformat (replace_Z raw_time)) as [[t | t off] |];
      try discriminate.
    cbn [dt_gt dt_lt bind]; rewrite Hlate; reflexivity.
  - destruct (fromisoformat (replace_Z raw_time)) as [ts |]; [| apply IH].
    destruct (dt_gt ts (Naive c)) as [[|] | s | e]; cbn [bind];
      try reflexivity.
    destruct raw_value; apply IH.
Qed.

(** The loop passes over a pair that leaves no trace. *)
Lemma hourly_loop_passes_over (c : Z)
    (before after : list (string * option R))
    (entry : string * option R) (acc : list TimeseriesPoint) :
  passed_over fromisoformat c entry = true ->
  hourly_loop fromisoformat (Naive c) (before ++ entry :: after) acc
  = hourly_loop fromisoformat (Naive c) (before ++ after) acc.
Proof.
  intros Hpassed; revert acc.
  induction before as [| [raw_time raw_value] rest IH]; intros acc;
    cbn [app hourly_loop].
  - destruct entry as [raw_time raw_value].
    unfold passed_over, parsed in Hpassed; cbn [fst snd] in Hpassed.
    destruct (fromisoformat (replace_Z raw_time)) as [[t | t off] |];
      try discriminate; [| reflexivity].
    destruct raw_value; [discriminate |].
    cbn [dt_gt dt_lt bind].
    destruct (c <? t); [discriminate | reflexivity].
  - destruct (fromisoformat (replace_Z raw_time)) as [ts |]; [| apply IH].
    destruct (dt_gt ts (Naive c)) as [[|] | s | e]; cbn [bind];
      try reflexivity.
    destruct raw_value; apply IH.
Qed.
End FetcherMore.

(** X7. When the upstream sends two non-empty arrays, what the fetcher
    does is decided by the pairs before the first naive timestamp past the
    cutoff.  If one of their timestamps parses to an aware value, the
    fetcher raises [TypeError].  If none does, it fails with 404 when no
    pair survives, and else returns the response whose points are the
    slice [[:hours]] of the surviving points (the pairs before the first
    one past the cutoff that parse and have a value, in upstream order),
    whose label and unit are those of the metric, whose coordinate and
    horizon are the requested ones, whose source is ["open-meteo"] and
    whose observations are empty.  One of the two cases always applies. *)
Theorem fetch_in_closed_form
    (fromisoformat : string -> option datetime)
    (open_meteo : forecast_params -> http_reply forecast_json)
    (now : Z) (m : MetricKey) (lat lon : R) (hours : Z)
    (timestamps : list string) (values : list (option R)) :
  serves open_meteo m lat lon hours timestamps values ->
  timestamps <> [] -> values <> [] ->
  (Exists (fun entry => parses_aware fromisoformat entry = true)
     (before_break fromisoformat (now + hours * 3600000000)
        (combine timestamps values)) ->
   _fetch_hourly_data fromisoformat open_meteo now m lat lon hours
   = Raise TypeError)
  /\ (Forall (fun entry => parses_aware fromisoformat entry = false)
        (before_break fromisoformat (now + hours * 3600000000)
           (combine timestamps values)) ->
      _fetch_hourly_data fromisoformat open_meteo now m lat lon hours
      = match surviving_points fromisoformat (now + hours * 3600000000)
                (combine timestamps values) with
        | [] => HTTPException 404
        | p :: pts => Ok (series_of m lat lon hours (p :: pts))
        end)
  /\ (Exists (fun entry => parses_aware fromisoformat entry = true)
        (before_break fromisoformat (now + hours * 3600000000)
           (combine timestamps values))
      \/ Forall (fun entry => parses_aware fromisoformat entry = false)
           (before_break fromisoformat (now + hours * 3600000000)
              (combine timestamps values))).
Proof.
  intros Hserves Hts Hvs.
  rewrite (fetch_on_arrays fromisoformat _ _ _ _ _ _ _ _ Hserves Hts Hvs).
  split; [| split].
  - intros Hex.
    rewrite (hourly_loop_raises_reached _ _ _ _ Hex); reflexivity.
  - intros Hall.
    rewrite (hourly_loop_returns_reached _ _ _ _ Hall); cbn [bind app].
    destruct (surviving_points _ _ _); reflexivity.
  - destruct (reached_naive_or_aware fromisoformat
                (now + hours * 3600000000) (combine timestamps values));
      [right | left]; assumption.
Qed.

Lemma fetch_in_closed_form_witness :
  _fetch_hourly_data fromisoformat_sample
    (upstream_serving ["2024-01-01T00:00"; "2024-01-01T01:00"]%string
       [Some 5%R; None])
    new_year_2024 temperature 40%R (-74)%R 24
  = Ok (series_of temperature 40%R (-74)%R 24 [first_hour_point]).
Proof.
  apply (proj1 (proj2
           (fetch_in_closed_form fromisoformat_sample
              (upstream_serving
                 ["2024-01-01T00:00"; "2024-01-01T01:00"]%string
                 [Some 5%R; None])
              new_year_2024 temperature 40%R (-74)%R 24
              ["2024-01-01T00:00"; "2024-01-01T01:00"]%string
              [Some 5%R; None]
              ltac:(eexists; repeat split; reflexivity)
              ltac:(discriminate) ltac:(discriminate)))).
  repeat constructor.
Defined.

(** X8. The fetcher fails with 502 exactly when the upstream call fails or
    the body lacks a usable pair of arrays (no ["hourly"] object, or the
    time array or the array of the metric's field absent or empty): the
    loop and what follows it never produce a 502. *)
Theorem fetch_502_exactly_without_arrays
    (fromisoformat : string -> option datetime)
    (open_meteo : forecast_params -> http_reply forecast_json)
    (now : Z) (m : MetricKey) (lat lon : R) (hours : Z) :
  _fetch_hourly_data fromisoformat open_meteo now m lat lon hours
  = HTTPException 502
  <-> (open_meteo (forecast_request m lat lon hours) = HTTPError
       \/ exists payload,
            open_meteo (forecast_request m lat lon hours) = Reply payload
            /\ lacks_arrays payload (api_field (METRIC_CATALOG m)) = true).
Proof.
  unfold _fetch_hourly_data, forecast_request, lacks_arrays; cbv zeta.
  destruct (open_meteo _) as [| payload] eqn:Hreply.
  - split; [intros _; left; reflexivity | reflexivity].
  - destruct payload as [hourly |].
    + destruct (falsy (json_time hourly) || falsy (json_field hourly _))
        eqn:Hguard.
      * split; [intros _; right; eexists; split; [reflexivity | exact Hguard]
               | reflexivity].
      * split.
        -- unfold timedelta_hours; cbn [dt_add].
           destruct (reached_naive_or_aware fromisoformat
                       (now + hours * 3600000000)
                       (combine (or_empty (json_time hourly))
                          (or_empty (json_field hourly
                                       (api_field (METRIC_CATALOG m))))))
             as [Hall | Hex].
           ++ rewrite (hourly_loop_returns_reached _ _ _ _ Hall).
              cbn [bind app].
              destruct (surviving_points _ _ _); discriminate.
           ++ rewrite (hourly_loop_raises_reached _ _ _ _ Hex).
              discriminate.
        -- intros [H | (payload & H & Hlacks)]; [discriminate |].
           inversion H; subst payload; congruence.
    + split; [intros _; right; eexists; split; reflexivity | reflexivity].
Qed.

(** X9. Whatever follows the first timestamp past the cutoff has no effect:
    two upstreams whose arrays agree up to and including a pair whose
    timestamp parses to a naive value greater than [now + hours] get the
    same outcome, also when later pairs lie inside the window. *)
Theorem fetch_ignores_pairs_after_break
    (fromisoformat : string -> option datetime)
    (upstream1 upstream2 : forecast_params -> http_reply forecast_json)
    (now : Z) (m : MetricKey) (lat lon : R) (hours : Z)
    (times : list string) (vals : list (option R))
    (late_time : string) (late_value : option R)
    (times1 times2 : list string) (vals1 vals2 : list (option R)) :
  List.length times = List.length vals ->
  breaks_loop fromisoformat (now + hours * 3600000000)
    (late_time, late_value) = true ->
  serves upstream1 m lat lon hours
    (times ++ late_time :: times1) (vals ++ late_value :: vals1) ->
  serves upstream2 m lat lon hours
    (times ++ late_time :: times2) (vals ++ late_value :: vals2) ->
  _fetch_hourly_data fromisoformat upstream1 now m lat lon hours
  = _fetch_hourly_data fromisoformat upstream2 now m lat lon hours.
Proof.
  intros Hlen Hlate H1 H2.
  rewrite (fetch_on_arrays fromisoformat _ _ _ _ _ _ _ _ H1)
    by (intros H; apply app_eq_nil in H as [_ H]; discriminate).
  rewrite (fetch_on_arrays fromisoformat _ _ _ _ _ _ _ _ H2)
    by (intros H; apply app_eq_nil in H as [_ H]; discriminate).
  rewrite !(combine_app_same _ _ _ _ Hlen); cbn [combine].
  rewrite !(hourly_loop_stops _ _ _ _ _ _ Hlate); reflexivity.
Qed.

Lemma fetch_ignores_pairs_after_break_witness :
  _fetch_hourly_data fromisoformat_sample
    (upstream_serving ["2024-01-01T00:00"; "2024-01-01T01:00"]%string
       [Some 5%R; Some 6%R])
    new_years_eve_2023 temperature 40%R (-74)%R 24
  = _fetch_hourly_data fromisoformat_sample
      (upstream_serving
         ["2024-01-01T00:00"; "2024-01-01T01:00"; "2024-01-01T00:00"]%string
         [Some 5%R; Some 6%R; Some 7%R])
      new_years_eve_2023 temperature 40%R (-74)%R 24.
Proof.
  apply (fetch_ignores_pairs_after_break fromisoformat_sample _ _
           new_years_eve_2023 temperature 40%R (-74)%R 24
           ["2024-01-01T00:00"%string] [Some 5%R]
           "2024-01-01T01:00"%string (Some 6%R)
           [] ["2024-01-01T00:00"%string] [] [Some 7%R]).
  - reflexivity.
  - reflexivity.
  - eexists; repeat split; reflexivity.
  - eexists; repeat split; reflexivity.
Defined.

(** X10. A pair whose timestamp does not parse, or whose value is null
    while its timestamp is naive and within the cutoff, leaves no trace:
    removing it from both arrays does not change the outcome, as long as
    the arrays stay non-empty (empty arrays are answered with 502). *)
Theorem fetch_passes_over_unusable_pairs
    (fromisoformat : string -> option datetime)
    (upstream1 upstream2 : forecast_params -> http_reply forecast_json)
    (now : Z) (m : MetricKey) (lat lon : R) (hours : Z)
    (times1 times2 : list string) (vals1 vals2 : list (option R))
    (raw_time : string) (raw_value : option R) :
  List.length times1 = List.length vals1 ->
  passed_over fromisoformat (now + hours * 3600000000)
    (raw_time, raw_value) = true ->
  times1 ++ times2 <> [] -> vals1 ++ vals2 <> [] ->
  serves upstream1 m lat lon hours
    (times1 ++ raw_time :: times2) (vals1 ++ raw_value :: vals2) ->
  serves upstream2 m lat lon hours (times1 ++ times2) (vals1 ++ vals2) ->
  _fetch_hourly_data fromisoformat upstream1 now m lat lon hours
  = _fetch_hourly_data fromisoformat upstream2 now m lat lon hours.
Proof.
  intros Hlen Hpassed Hts Hvs H1 H2.
  rewrite (fetch_on_arrays fromisoformat _ _ _ _ _ _ _ _ H1)
    by (intros H; apply app_eq_nil in H as [_ H]; discriminate).
  rewrite (fetch_on_arrays fromisoformat _ _ _ _ _ _ _ _ H2 Hts Hvs).
  rewrite !(combine_app_same _ _ _ _ Hlen); cbn [combine].
  rewrite (hourly_loop_passes_over _ _ _ _ _ _ Hpassed); reflexivity.
Qed.

Lemma fetch_passes_over_unusable_pairs_witness :
  _fetch_hourly_data fromisoformat_sample
    (upstream_serving ["2024-01-01T00:00"; "not a time"]%string
       [Some 5%R; Some 6%R])
    new_year_2024 temperature 40%R (-74)%R 24
  = _fetch_hourly_data fromisoformat_sample
      (upstream_serving ["2024-01-01T00:00"]%string [Some 5%R])
      new_year_2024 temperature 40%R (-74)%R 24.
Proof.
  apply (fetch_passes_over_unusable_pairs fromisoformat_sample _ _
           new_year_2024 temperature 40%R (-74)%R 24
           ["2024-01-01T00:00"%string] [] [Some 5%R] []
           "not a time"%string (Some 6%R)).
  - reflexivity.
  - reflexivity.
  - discriminate.
  - discriminate.
  - eexists; repeat split; reflexivity.
  - eexists; repeat split; reflexivity.
Defined.

(** ** The request of the fetcher *)

(** X11. The number of forecast days the fetcher asks for lies between 1
    and 7 for every horizon, and for a horizon between 1 and 168 hours it
    is the least number of whole days that covers the horizon.  The
    outcome of a fetch depends on the upstream only through its answer to
    that one request. *)
Theorem forecast_days_cover_horizon (hours : Z) :
  1 <= forecast_days_of hours <= 7
  /\ (1 <= hours <= 168 ->
      hours <= 24 * forecast_days_of hours < hours + 24)
  /\ (forall fromisoformat upstream1 upstream2 now m lat lon,
        upstream1 (forecast_request m lat lon hours)
        = upstream2 (forecast_request m lat lon hours) ->
        _fetch_hourly_data fromisoformat upstream1 now m lat lon hours
        = _fetch_hourly_data fromisoformat upstream2 now m lat lon hours).
Proof.
  unfold forecast_days_of, ceil_div24.
  pose proof (Z.div_mod (- hours) 24 ltac:(lia)) as Hdm.
  pose proof (Z.mod_pos_bound (- hours) 24 ltac:(lia)) as Hmod.
  split; [lia |]; split; [lia |].
  intros fromisoformat upstream1 upstream2 now m lat lon Hsame.
  unfold _fetch_hourly_data, forecast_request in *; cbv zeta.
  rewrite Hsame; reflexivity.
Qed.

Lemma forecast_days_cover_horizon_witness :
  25 <= 24 * forecast_days_of 25 < 25 + 24.
Proof.
  apply (forecast_days_cover_horizon 25); lia.
Defined.

(** ** [replace("Z", "+00:00")] *)

Lemma replace_Z_app (a b : string) :
  replace_Z (a ++ b) = (replace_Z a ++ replace_Z b)%string.
Proof.
  induction a as [| c rest IH]; cbn [append replace_Z]; [reflexivity |].
  rewrite IH; destruct (Ascii.eqb c "Z"); reflexivity.
Qed.

Lemma replace_Z_clean (s : string) : has_Z (replace_Z s) = false.
Proof.
  induction s as [| c rest IH]; cbn [replace_Z]; [reflexivity |].
  destruct (Ascii.eqb c "Z") eqn:Hc.
  - cbn; exact IH.
  - cbn [has_Z]; rewrite Hc, IH; reflexivity.
Qed.

Lemma replace_Z_unchanged (s : string) :
  has_Z s = false -> replace_Z s = s.
Proof.
  induction s as [| c rest IH]; cbn [has_Z replace_Z]; [reflexivity |].
  destruct (Ascii.eqb c "Z"); cbn [orb]; [discriminate |].
  intros H; rewrite (IH H); reflexivity.
Qed.

(** X12. The rewriting of timestamps before they are parsed replaces every
    [Z] of the string, wherever it stands, by [+00:00], piece by piece;
    the result holds no [Z]; and a string without [Z], such as a timestamp
    without a zone, reaches the parser unchanged. *)
Theorem replace_Z_rewrites_every_Z :
  (forall a b : string,
     replace_Z (a ++ "Z" ++ b)
     = (replace_Z a ++ "+00:00" ++ replace_Z b)%string)
  /\ (forall s : string, has_Z (replace_Z s) = false)
  /\ (forall s : string, has_Z s = false -> replace_Z s = s).
Proof.
  split; [| split; [exact replace_Z_clean | exact replace_Z_unchanged]].
  intros a b; rewrite !replace_Z_app; reflexivity.
Qed.

Lemma replace_Z_rewrites_every_Z_witness :
  replace_Z "2024-01-01T00:00" = "2024-01-01T00:00"%string.
Proof.
  apply (proj2 (proj2 replace_Z_rewrites_every_Z)); reflexivity.
Defined.

(** ** Failures of [geocode] *)

Section GeocodeMore.
Variable geocoding_api : geocode_params -> http_reply geocode_json.

Lemma GeocodeResult_of_outcome (item : geocode_item) :
  (complete item = true /\ exists result, GeocodeResult_of item = Ok result)
  \/ (complete item = false
      /\ GeocodeResult_of item = Raise ValidationError).
Proof.
  unfold complete, GeocodeResult_of.
  destruct (item_name item), (item_latitude item), (item_longitude item);
    try (right; split; reflexivity).
  left; split; [reflexivity | eexists; reflexivity].
Qed.

Lemma comprehension_outcome (items : list geocode_item) :
  (Forall (fun item => complete item = true) items
   /\ exists results,
        comprehension GeocodeResult_of items = Ok results
        /\ List.length results = List.length items)
  \/ (Exists (fun item => complete item = false) items
      /\ comprehension GeocodeResult_of items = Raise ValidationError).
Proof.
  induction items as [| item rest IH]; cbn [comprehension].
  - left; split; [constructor | exists []; split; reflexivity].
  - destruct (GeocodeResult_of_outcome item) as [[Hc [r ->]] | [Hc ->]];
      cbn [bind].
    + destruct IH as [[Hall (rs & -> & Hlen)] | [Hex ->]]; cbn [bind].
      * left; split; [constructor; assumption |].
        exists (r :: rs); split; [reflexivity | cbn; congruence].
      * right; split; [apply Exists_cons_tl, Hex | reflexivity].
    + right; split; [apply Exists_cons_hd, Hc | reflexivity].
Qed.

(** X13. A search fails in two ways only.  It fails with 502 exactly when
    the call to the provider fails.  It raises [ValidationError] exactly
    when the provider answers and some item of its list lacks a name, a
    latitude or a longitude: one such item fails the whole search, no
    partial list is returned.  In every other case it returns as many
    results as the provider sent, whatever [count] was asked. *)
Theorem geocode_fails_whole_or_not_at_all (query : string) (count : Z) :
  (geocode geocoding_api query count = HTTPException 502
   <-> geocoding_api (geocode_request query count) = HTTPError)
  /\ (geocode geocoding_api query count = Raise ValidationError
      <-> exists json,
            geocoding_api (geocode_request query count) = Reply json
            /\ Exists (fun item => complete item = false)
                 (provider_results json))
  /\ (forall json,
        geocoding_api (geocode_request query count) = Reply json ->
        Forall (fun item => complete item = true) (provider_results json) ->
        exists results,
          geocode geocoding_api query count = Ok results
          /\ List.length results = List.length (provider_results json)).
Proof.
  destruct (geocoding_api (geocode_request query count)) as [| json] eqn:Hr.
  - assert (H502 : geocode geocoding_api query count = HTTPException 502)
      by (unfold geocode, geocode_request in *; cbv zeta; rewrite Hr;
          reflexivity).
    rewrite H502; split; [split; reflexivity |]; split.
    + split; [discriminate | intros (json & H & _); discriminate].
    + intros json H; discriminate.
  - rewrite (geocode_on_reply _ _ _ _ Hr).
    destruct (comprehension_outcome (provider_results json))
      as [[Hall (rs & Hrs & Hlen)] | [Hex Hraise]].
    + rewrite Hrs; split; [split; discriminate |]; split.
      * split; [discriminate |].
        intros (json' & H & Hex); inversion H; subst json'.
        apply Exists_exists in Hex as (item & Hin & Hc).
        rewrite Forall_forall in Hall; rewrite (Hall item Hin) in Hc.
        discriminate.
      * intros json' H _; inversion H; subst json'.
        exists rs; split; [reflexivity | exact Hlen].
    + rewrite Hraise; split; [split; discriminate |]; split.
      * split; [intros _; exists json; split; [reflexivity | exact Hex]
               | reflexivity].
      * intros json' H Hall; inversion H; subst json'.
        apply Exists_exists in Hex as (item & Hin & Hc).
        rewrite Forall_forall in Hall; rewrite (Hall item Hin) in Hc.
        discriminate.
Qed.
End GeocodeMore.

Lemma geocode_fails_whole_or_not_at_all_witness :
  exists results,
    geocode geocoding_springfield "Springfield" 3 = Ok results
    /\ List.length results = 1%nat.
Proof.
  apply (proj2 (proj2 (geocode_fails_whole_or_not_at_all
                         geocoding_springfield "Springfield" 3))
           (Some {| json_results := Some [springfield_item] |})).
  - reflexivity.
  - repeat constructor.
Defined.

(** ** [display_name] *)

Lemma append_empty_r (s : string) : (s ++ EmptyString)%string = s.
Proof.
  induction s as [| c rest IH]; cbn [append]; [| rewrite IH]; reflexivity.
Qed.

Lemma append_assoc3 (a b c : string) :
  ((a ++ b) ++ c)%string = (a ++ b ++ c)%string.
Proof.
  induction a as [| x rest IH]; cbn [append]; [| rewrite IH]; reflexivity.
Qed.

Lemma join_comma_cons (piece : string) (rest : list string) :
  rest <> [] ->
  join_comma (piece :: rest) = (piece ++ ", " ++ join_comma rest)%string.
Proof.
  destruct rest; [congruence | reflexivity].
Qed.

(** X14. The display label of a result is its name, followed by [", "] and
    the region when the region is present and not empty, followed by
    [", "] and the country when the country is present and not empty: an
    absent and an empty field both add nothing, so the label has no
    dangling separator from a missing field. *)
Theorem display_name_in_closed_form (self : GeocodeResult) :
  display_name self
  = (geo_name self ++ comma_piece (geo_admin1 self)
       ++ comma_piece (geo_country self))%string.
Proof.
  unfold display_name, comma_piece; cbv zeta.
  destruct (geo_admin1 self) as [[| c1 r1] |],
           (geo_country self) as [[| c2 r2] |];
    cbn [app]; rewrite ?join_comma_cons by discriminate;
    cbn [join_comma]; rewrite ?append_empty_r, ?append_assoc3;
    cbn [append]; rewrite ?append_empty_r; reflexivity.
Qed.

(** ** The haversine distance: laws and arc lengths *)

Section HaversineLaws.
Context {fp : float_arith}.
Local Open Scope R_scope.

Lemma radians_odd (x : R) :
  sign_symmetric fp -> radians (- x) = - radians x.
Proof.
  intros (Hfl & _); unfold radians.
  replace (- x * fl (math_pi / 180)) with (- (x * fl (math_pi / 180)))
    by lra.
  apply Hfl.
Qed.

(** The squared sine of half a difference does not depend on the order of
    the two operands. *)
Lemma half_sine_squared_sym (x y : R) :
  sign_symmetric fp ->
  fl_pow2 (fl_sin (fl (radians (fl (x - y)) / 2)))
  = fl_pow2 (fl_sin (fl (radians (fl (y - x)) / 2))).
Proof.
  intros Hs; pose proof (radians_odd (fl (y - x)) Hs) as Hr.
  destruct Hs as (Hfl & Hsin & Hpow).
  replace (x - y) with (- (y - x)) by lra.
  rewrite Hfl, Hr.
  replace (- radians (fl (y - x)) / 2) with (- (radians (fl (y - x)) / 2))
    by lra.
  rewrite Hfl, Hsin, Hpow; reflexivity.
Qed.

Lemma haversine_a_sym (lat1 lon1 lat2 lon2 : R) :
  sign_symmetric fp ->
  haversine_a lat1 lon1 lat2 lon2 = haversine_a lat2 lon2 lat1 lon1.
Proof.
  intros Hs; unfold haversine_a; cbv zeta.
  rewrite (half_sine_squared_sym lat2 lat1 Hs).
  rewrite (half_sine_squared_sym lon2 lon1 Hs).
  rewrite (Rmult_comm (fl_cos (radians lat1))); reflexivity.
Qed.
End HaversineLaws.

Lemma exact_reals_sign_symmetric : sign_symmetric exact_reals.
Proof.
  unfold sign_symmetric; cbn [fl fl_sin fl_pow2 exact_reals].
  repeat split; intros x; [apply sin_neg | simpl; lra].
Qed.

(** X19. What holds of the distance in every arithmetic.  The call
    returns or raises [ValueError], nothing else.  Where zero stays zero
    the distance of a coordinate to itself is 0.  Where the arithmetic
    respects signs the call is symmetric in its two coordinates: same
    value, or the same error, in both directions. *)
Theorem haversine_in_every_arithmetic {fp : float_arith} :
  (forall lat1 lon1 lat2 lon2 : R,
     (exists d, _haversine_distance_km lat1 lon1 lat2 lon2 = Ok d)
     \/ _haversine_distance_km lat1 lon1 lat2 lon2 = Raise ValueError)
  /\ (zero_preserving fp ->
      forall lat lon : R, _haversine_distance_km lat lon lat lon = Ok 0%R)
  /\ (sign_symmetric fp ->
      forall lat1 lon1 lat2 lon2 : R,
        _haversine_distance_km lat1 lon1 lat2 lon2
        = _haversine_distance_km lat2 lon2 lat1 lon1).
Proof.
  split; [exact haversine_outcome |]; split.
  - intros Hz lat lon; apply haversine_same, Hz.
  - intros Hs lat1 lon1 lat2 lon2; unfold _haversine_distance_km; cbv zeta.
    rewrite (haversine_a_sym lat1 lon1 lat2 lon2 Hs); reflexivity.
Qed.

Lemma haversine_in_every_arithmetic_witness :
  _haversine_distance_km (fp := exact_reals) 40%R (-74)%R 40%R (-74)%R
  = Ok 0%R
  /\ _haversine_distance_km (fp := exact_reals) 40%R (-74)%R 10%R 10%R
     = _haversine_distance_km (fp := exact_reals) 10%R 10%R 40%R (-74)%R.
Proof.
  split.
  - apply (proj1 (proj2 (haversine_in_every_arithmetic (fp := exact_reals)))
             exact_reals_zero_preserving).
  - apply (proj2 (proj2 (haversine_in_every_arithmetic (fp := exact_reals)))
             exact_reals_sign_symmetric).
Defined.

Section HaversineMore.
Local Open Scope R_scope.
Local Existing Instance exact_reals.

Lemma asin_sqrt_sin_sq (x : R) :
  - (PI / 2) <= x <= PI / 2 -> asin (sqrt (sin x ^ 2)) = Rabs x.
Proof.
  intros Hx.
  replace (sin x ^ 2) with (Rsqr (sin x)) by (unfold Rsqr; simpl; lra).
  rewrite sqrt_Rsqr_abs.
  pose proof PI_RGT_0 as Hpi.
  unfold Rabs at 2; destruct (Rcase_abs x) as [Hneg | Hpos].
  - assert (Hs : sin x <= 0).
    { replace x with (- (- x)) by lra; rewrite sin_neg.
      pose proof (sin_ge_0 (- x) ltac:(lra) ltac:(lra)); lra. }
    rewrite Rabs_left1 by exact Hs.
    rewrite <- sin_neg; apply asin_sin; lra.
  - rewrite Rabs_right by (apply Rle_ge, sin_ge_0; lra).
    apply asin_sin; lra.
Qed.

Lemma radians_Rabs (x : R) : radians (Rabs x) = Rabs (radians x).
Proof.
  rewrite !radians_exact, Rabs_mult.
  pose proof PI_RGT_0.
  rewrite (Rabs_right (PI / 180)) by lra; reflexivity.
Qed.

Lemma half_radians_bound (x : R) :
  Rabs x <= 180 -> - (PI / 2) <= radians x / 2 <= PI / 2.
Proof.
  intros Hx; pose proof PI_RGT_0 as Hpi.
  assert (Hb : -180 <= x <= 180).
  { unfold Rabs in Hx; destruct (Rcase_abs x); lra. }
  rewrite radians_exact; split; nra.
Qed.

(** Over the reals, with no difference in longitude, or on the equator,
    [a] is the squared sine of half the other difference. *)
Lemma haversine_a_meridian (lat1 lat2 lon : R) :
  haversine_a lat1 lon lat2 lon = sin (radians (lat2 - lat1) / 2) ^ 2.
Proof.
  rewrite haversine_a_exact.
  replace (lon - lon) with 0 by lra.
  rewrite (radians_exact 0).
  replace (0 * (PI / 180) / 2) with 0 by lra.
  rewrite sin_0; simpl; lra.
Qed.

Lemma haversine_a_equator (lon1 lon2 : R) :
  haversine_a 0 lon1 0 lon2 = sin (radians (lon2 - lon1) / 2) ^ 2.
Proof.
  rewrite haversine_a_exact.
  replace (0 - 0) with 0 by lra.
  rewrite (radians_exact 0).
  replace (0 * (PI / 180) / 2) with 0 by lra.
  replace (0 * (PI / 180)) with 0 by lra.
  rewrite sin_0, cos_0; simpl; lra.
Qed.

(** X16. Along a meridian and along the equator the distance is the length
    of the arc: for two points of one longitude whose latitudes differ by
    at most 180 degrees it is [6371] times that difference in radians, and
    likewise for two points of latitude 0 whose longitudes differ by at
    most 180 degrees. *)
Theorem haversine_is_arc_length :
  (forall lat1 lat2 lon : R,
     Rabs (lat2 - lat1) <= 180 ->
     _haversine_distance_km lat1 lon lat2 lon
     = Ok (6371 * radians (Rabs (lat2 - lat1))))
  /\ (forall lon1 lon2 : R,
        Rabs (lon2 - lon1) <= 180 ->
        _haversine_distance_km 0 lon1 0 lon2
        = Ok (6371 * radians (Rabs (lon2 - lon1)))).
Proof.
  split.
  - intros lat1 lat2 lon Hd; rewrite haversine_closed_form.
    rewrite haversine_a_meridian,
      (asin_sqrt_sin_sq _ (half_radians_bound _ Hd)).
    rewrite radians_Rabs; f_equal.
    unfold Rdiv; rewrite Rabs_mult, (Rabs_right (/ 2)) by lra; lra.
  - intros lon1 lon2 Hd; rewrite haversine_closed_form.
    rewrite haversine_a_equator,
      (asin_sqrt_sin_sq _ (half_radians_bound _ Hd)).
    rewrite radians_Rabs; f_equal.
    unfold Rdiv; rewrite Rabs_mult, (Rabs_right (/ 2)) by lra; lra.
Qed.

Lemma haversine_is_arc_length_witness :
  _haversine_distance_km 0 0 90 0 = Ok (6371 * radians (Rabs (90 - 0))).
Proof.
  apply (proj1 haversine_is_arc_length 0 90 0).
  replace (90 - 0) with 90 by lra.
  rewrite Rabs_right; lra.
Defined.
End HaversineMore.

(** ** [timeseries]: forecast and observations together *)

Section TimeseriesFacts.
Context {fp : float_arith}.
Variable fromisoformat : string -> option datetime.
Variable open_meteo : forecast_params -> http_reply forecast_json.

(** A response the fetcher returns is built from a non-empty point list. *)
Lemma fetch_Ok_series (now : Z) (m : MetricKey) (lat lon : R) (hours : Z)
    (series : TimeseriesResponse) :
  _fetch_hourly_data fromisoformat open_meteo now m lat lon hours = Ok series ->
  exists pts, pts <> [] /\ series = series_of m lat lon hours pts.
Proof.
  unfold _fetch_hourly_data; cbv zeta.
  destruct (open_meteo _) as [| payload]; [discriminate |].
  destruct (falsy _ || falsy _); [discriminate |].
  destruct (hourly_loop _ _ _ _) as [[| p pts] | s | e]; cbn [bind];
    try discriminate.
  intros H; inversion H; exists (p :: pts); split;
    [discriminate | reflexivity].
Qed.

(** X17. A response of [/timeseries] is the fetcher's response with the
    observations attached and nothing else touched: its points, metric,
    label, unit, coordinate, horizon and source are the fetcher's.  When
    observations are asked for, they are exactly the records of the store
    of that metric, not older than [hours] at the clock value of the
    filter and within 75 km of the requested coordinate, ascending by
    timestamp; when they are not asked for, the list is empty.  The store
    is left as it was. *)
Theorem timeseries_attaches_observations (now_fetch now_filter : Z)
    (m : MetricKey) (lat lon : R) (hours : Z) (include : bool)
    (store store' : list ObservationRecord) (resp : TimeseriesResponse) :
  timeseries fromisoformat open_meteo now_fetch now_filter m lat lon hours
    include store = (Ok resp, store') ->
  store' = store
  /\ (exists series,
        _fetch_hourly_data fromisoformat open_meteo now_fetch m lat lon hours
        = Ok series
        /\ resp = set_user_observations series (user_observations resp))
  /\ ts_metric resp = m
  /\ ts_metric_label resp = label (METRIC_CATALOG m)
  /\ ts_unit resp = unit (METRIC_CATALOG m)
  /\ ts_latitude resp = lat /\ ts_longitude resp = lon
  /\ ts_hours_requested resp = hours
  /\ ts_source resp = "open-meteo"%string
  /\ (if include then
        Permutation
          (filter (selected lat lon (Some m) now_filter hours 75%R) store)
          (user_observations resp)
        /\ StronglySorted not_later (user_observations resp)
      else user_observations resp = []).
Proof.
  unfold timeseries, hbind, lift, read_store, hret.
  destruct (_fetch_hourly_data _ _ _ _ _ _ _) as [series | s | e] eqn:Hfetch;
    try discriminate.
  destruct (fetch_Ok_series _ _ _ _ _ _ Hfetch) as (pts & _ & Hseries).
  destruct include.
  - destruct (_filter_user_observations _ _ _ _ _ _ _) as [obs | s | e]
      eqn:Hobs; try discriminate.
    intros H; inversion H; subst resp store'; clear H.
    apply filter_user_observations_Ok in Hobs as (Hperm & Hsorted & _).
    split; [reflexivity |].
    split; [exists series; split; reflexivity |].
    subst series; repeat split; assumption.
  - intros H; inversion H; subst resp store'; clear H.
    split; [reflexivity |].
    split; [exists series; split; [reflexivity | subst series; reflexivity] |].
    subst series; repeat split.
Qed.

(** X18. How [/timeseries] fails.  A failure of the fetcher is the failure
    of the request, whatever the store holds and whether or not
    observations are asked for.  When the fetcher returns and observations
    are not asked for, the request returns the fetcher's response, also on
    a store that holds aware timestamps.  When observations are asked for
    and the store holds a record of the requested metric with an aware
    timestamp, the request does not return although the forecast was
    fetched: it raises [TypeError], or the [ValueError] of a distance
    computed before that record was reached; and it raises [TypeError]
    when every distance the filter computes returns. *)
Theorem timeseries_failures (now_fetch now_filter : Z)
    (m : MetricKey) (lat lon : R) (hours : Z) (include : bool)
    (store : list ObservationRecord) :
  (forall s,
     _fetch_hourly_data fromisoformat open_meteo now_fetch m lat lon hours
     = HTTPException s ->
     fst (timeseries fromisoformat open_meteo now_fetch now_filter m lat lon
            hours include store) = HTTPException s)
  /\ (forall e,
        _fetch_hourly_data fromisoformat open_meteo now_fetch m lat lon hours
        = Raise e ->
        fst (timeseries fromisoformat open_meteo now_fetch now_filter m
               lat lon hours include store) = Raise e)
  /\ (include = false ->
      fst (timeseries fromisoformat open_meteo now_fetch now_filter m
             lat lon hours include store)
      = _fetch_hourly_data fromisoformat open_meteo now_fetch m lat lon hours)
  /\ (forall series,
        _fetch_hourly_data fromisoformat open_meteo now_fetch m lat lon hours
        = Ok series ->
        include = true ->
        Exists (fun obs => metric obs = m
                           /\ is_naive (timestamp obs) = false) store ->
        (fst (timeseries fromisoformat open_meteo now_fetch now_filter m
                lat lon hours include store) = Raise TypeError
         \/ fst (timeseries fromisoformat open_meteo now_fetch now_filter m
                   lat lon hours include store) = Raise ValueError)
        /\ (distances_return lat lon (Some m) now_filter hours store ->
            fst (timeseries fromisoformat open_meteo now_fetch now_filter m
                   lat lon hours include store) = Raise TypeError)).
Proof.
  unfold timeseries, hbind, lift, read_store, hret.
  split; [| split; [| split]].
  - intros s ->; reflexivity.
  - intros e ->; reflexivity.
  - intros ->; destruct (_fetch_hourly_data _ _ _ _ _ _ _); reflexivity.
  - intros series -> -> Hex.
    assert (Hex' : Exists (fun obs => metric_matches (Some m) obs = true
                             /\ is_naive (timestamp obs) = false) store).
    { eapply Exists_impl; [| exact Hex].
      intros obs [Hm Hn]; split; [| exact Hn].
      cbn [metric_matches]; rewrite Hm; apply MetricKey_eqb_refl. }
    split.
    + destruct (filter_user_observations_raises store now_filter lat lon
                  (Some m) hours default_radius_km Hex') as [-> | ->];
        [left | right]; reflexivity.
    + intros Hdist.
      rewrite (filter_user_observations_TypeError store now_filter lat lon
                 (Some m) hours default_radius_km Hex' Hdist).
      reflexivity.
Qed.
End TimeseriesFacts.

Lemma timeseries_attaches_observations_witness :
  [] = @nil ObservationRecord
  /\ (exists series,
        _fetch_hourly_data fromisoformat_sample
          (upstream_serving ["2024-01-01T00:00"; "2024-01-01T01:00"]%string
             [Some 5%R; None])
          new_year_2024 temperature 40%R (-74)%R 24
        = Ok series
        /\ temperature_series [first_hour_point]
           = set_user_observations series
               (user_observations (temperature_series [first_hour_point])))
  /\ ts_metric (temperature_series [first_hour_point]) = temperature
  /\ ts_metric_label (temperature_series [first_hour_point])
     = label (METRIC_CATALOG temperature)
  /\ ts_unit (temperature_series [first_hour_point])
     = unit (METRIC_CATALOG temperature)
  /\ ts_latitude (temperature_series [first_hour_point]) = 40%R
  /\ ts_longitude (temperature_series [first_hour_point]) = (-74)%R
  /\ ts_hours_requested (temperature_series [first_hour_point]) = 24
  /\ ts_source (temperature_series [first_hour_point]) = "open-meteo"%string
  /\ (Permutation
        (filter (selected (fp := exact_reals) 40%R (-74)%R
                   (Some temperature) new_year_2024 24 75%R) [])
        (user_observations (temperature_series [first_hour_point]))
      /\ StronglySorted not_later
           (user_observations (temperature_series [first_hour_point]))).
Proof.
  apply (timeseries_attaches_observations (fp := exact_reals)
           fromisoformat_sample
           (upstream_serving ["2024-01-01T00:00"; "2024-01-01T01:00"]%string
              [Some 5%R; None])
           new_year_2024 new_year_2024 temperature 40%R (-74)%R 24 true
           [] [] (temperature_series [first_hour_point])).
  reflexivity.
Defined.
